(** * Load planning service: the plan-generation handler and the placement core

    The development has two parts.

    - The request layer of [main.py]: the handler [generate_plan], which
      looks a vehicle and a set of cargo rows up, calls the physics engine
      twice and stores one row in [load_plans].  It is embedded as a
      program in a small state-and-exception monad over the database and a
      log of the calls made to the engine.
    - The placement optimizer and the stability analyzer, which live in
      [physics_engine.py].  That module is not among the sources, so the
      handler takes the engine as an interface, and the core itself is
      modelled from the design document in [Module Core]. *)

From Stdlib Require Import List ZArith QArith Qround Qabs Qminmax.
From Stdlib Require Import String Bool Lia Lqa.
From Stdlib Require Import DecimalString Permutation Sorted.
Import ListNotations.

Local Open Scope string_scope.
Local Open Scope list_scope.
Local Open Scope Z_scope.

(** ** Rows of the four tables

    The cursor hands rows out as dictionaries keyed by column name; a row
    is a record with one field per column the program touches. *)

Module User.
Record row := mk
  { user_id : Z; name : string; email : string;
    password_hash : string; role : string }.
End User.

Module Vehicle.
Record row := mk
  { vehicle_id : Z; vehicle_type : string; max_load : Q;
    length : Q; width : Q; height : Q }.
End Vehicle.

Module Cargo.
Record row := mk
  { cargo_id : Z; name : string; weight : Q;
    length : Q; width : Q; height : Q }.
End Cargo.

Module LoadPlan.
(** The seven columns the handler's INSERT names.  Columns the database
    fills in by itself (a serial key, a timestamp) are left out. *)
Record row := mk
  { user_id : Z; vehicle_id : Z; stability_score : Q;
    center_of_gravity_x : Q; center_of_gravity_y : Q;
    center_of_gravity_z : Q; status : string }.
End LoadPlan.

Record database := mkDb
  { users : list User.row;
    vehicles : list Vehicle.row;
    cargo : list Cargo.row;
    load_plans : list LoadPlan.row }.

(** ** Request body, token payload, analysis *)

Module LoadPlanCreate.
Record t := mk { vehicle_id : Z; cargo_items : list Z }.
End LoadPlanCreate.

(** The decoded token, [current_user]: the payload that [login] signs. *)
Record TokenData := mkToken { sub : string; email : string; role : string }.

Record Point := mkPoint { x : Q; y : Q; z : Q }.

(** What [analyze_load] returns: the handler reads [stability_score],
    [center_of_gravity] and [is_safe] off it. *)
Record LoadPlanAnalysis := mkAnalysis
  { total_weight : Q;
    center_of_gravity : Point;
    stability_score : Q;
    is_safe : bool;
    warnings : list string }.

(** ** Calls that return or raise *)

Definition exn := string.

Inductive outcome (A : Type) : Type :=
| Returned (a : A)
| Raised (e : exn).
Arguments Returned {A} a.
Arguments Raised {A} e.

(** ** The physics engine, as the handler sees it

    [P] is whatever [optimize_placement] returns; the handler never looks
    inside it.  The vehicle is optional because [fetchone] yields [None]
    when no row matches. *)

Record PhysicsEngine (P : Type) := mkEngine
  { optimize_placement :
      list Cargo.row -> option Vehicle.row -> outcome P;
    analyze_load :
      P -> list Cargo.row -> option Vehicle.row -> outcome LoadPlanAnalysis }.
Arguments optimize_placement {P} _ _ _.
Arguments analyze_load {P} _ _ _ _.

(** One entry of the log of engine calls, with the arguments passed. *)
Inductive engine_call (P : Type) : Type :=
| CallOptimize (items : list Cargo.row) (vehicle : option Vehicle.row)
| CallAnalyze (placements : P) (items : list Cargo.row)
    (vehicle : option Vehicle.row).
Arguments CallOptimize {P} items vehicle.
Arguments CallAnalyze {P} placements items vehicle.

(** ** The handler's monad: database, call log, exceptions *)

Record world (P : Type) := mkWorld
  { db : database; calls : list (engine_call P) }.
Arguments mkWorld {P} db calls.
Arguments db {P} _.
Arguments calls {P} _.

Definition M (P A : Type) : Type := world P -> outcome A * world P.

Definition ret {P A} (a : A) : M P A := fun w => (Returned a, w).

Definition bind {P A B} (m : M P A) (k : A -> M P B) : M P B :=
  fun w =>
    match m w with
    | (Returned a, w') => k a w'
    | (Raised e, w') => (Raised e, w')
    end.

Notation "v <- m ;; k" := (bind m (fun v => k))
  (at level 61, m at next level, right associativity).

(** A computation that touches neither the database nor the log. *)
Definition lift {P A} (o : outcome A) : M P A := fun w => (o, w).

(** *** Cursor operations *)

(** [SELECT * FROM vehicles WHERE vehicle_id=%s] followed by [fetchone]. *)
Definition select_vehicle {P} (id : Z) : M P (option Vehicle.row) :=
  fun w =>
    (Returned (find (fun r => Vehicle.vehicle_id r =? id) (vehicles (db w))), w).

(** The rows of a cargo table whose key is among [ids]. *)
Definition cargo_matching (ids : list Z) (tbl : list Cargo.row)
  : list Cargo.row :=
  filter (fun r => existsb (Z.eqb (Cargo.cargo_id r)) ids) tbl.

(** [SELECT * FROM cargo WHERE cargo_id = ANY(%s)] followed by [fetchall]. *)
Definition select_cargo {P} (ids : list Z) : M P (list Cargo.row) :=
  fun w => (Returned (cargo_matching ids (cargo (db w))), w).

(** [INSERT INTO load_plans (...) VALUES (...) RETURNING *] followed by
    [fetchone]: the row is appended to [load_plans], the other tables are
    left as they are, and the row is handed back.  The cursor comes from
    [db.get_cursor()], whose module is not among the sources; it is taken
    to commit when its [with] block is left normally, and the handler
    writes nothing before its last statement, so a run that raises has
    nothing to undo. *)
Definition with_plan (d : database) (r : LoadPlan.row) : database :=
  mkDb (users d) (vehicles d) (cargo d) (load_plans d ++ [r]).

Definition insert_load_plan {P} (r : LoadPlan.row) : M P LoadPlan.row :=
  fun w => (Returned r, mkWorld (with_plan (db w) r) (calls w)).

(** *** Engine calls, logged as they are made *)

Definition call_optimize {P} (eng : PhysicsEngine P)
  (items : list Cargo.row) (vehicle : option Vehicle.row) : M P P :=
  fun w =>
    (optimize_placement eng items vehicle,
     mkWorld (db w) (calls w ++ [CallOptimize items vehicle])).

Definition call_analyze {P} (eng : PhysicsEngine P) (placements : P)
  (items : list Cargo.row) (vehicle : option Vehicle.row)
  : M P LoadPlanAnalysis :=
  fun w =>
    (analyze_load eng placements items vehicle,
     mkWorld (db w) (calls w ++ [CallAnalyze placements items vehicle])).

(** ** [generate_plan] *)

(** ["approved" if analysis["is_safe"] else "draft"] *)
Definition status_of (analysis : LoadPlanAnalysis) : string :=
  if is_safe analysis then "approved" else "draft".

Section Handler.

Context {P : Type}.
Variable physics_engine : PhysicsEngine P.
(** Python's [int] on a string: a number, or [ValueError]. *)
Variable int : string -> outcome Z.

Definition generate_plan (plan : LoadPlanCreate.t) (current_user : TokenData)
  : M P LoadPlan.row :=
  vehicle <- select_vehicle (LoadPlanCreate.vehicle_id plan) ;;
  cargo_items <- select_cargo (LoadPlanCreate.cargo_items plan) ;;
  placements <- call_optimize physics_engine cargo_items vehicle ;;
  analysis <- call_analyze physics_engine placements cargo_items vehicle ;;
  user_id <- lift (int (sub current_user)) ;;
  insert_load_plan
    (LoadPlan.mk
       user_id
       (LoadPlanCreate.vehicle_id plan)
       (stability_score analysis)
       (x (center_of_gravity analysis))
       (y (center_of_gravity analysis))
       (z (center_of_gravity analysis))
       (status_of analysis)).

End Handler.

(** ** The placement core *)

Module Core.

Local Open Scope Q_scope.

(** Modelled from the spec: [physics_engine.py], which holds the optimizer
    and the analyzer, is not among the sources.  Everything in this module
    follows the design document: the data model of its section 3, the
    geometry of 4.1, the greedy packer of 4.2, the analyzer of 4.3, the
    report of 4.4 and the error kinds of section 7.  Lengths and masses
    are exact rationals.  Vehicles and cargo items are the rows above. *)
Record Config := mkConfig
  { max_items : nat;
    wL : Q; wF : Q; wH : Q;
    safety_threshold : Q }.

Definition default_config : Config := mkConfig 500 0.35 0.35 0.30 70.

(** An axis-aligned box: minimum corner and extents; x runs along the
    bay's width, y along its length, z up from the floor. *)
Record Box := mkBox
  { min_x : Q; min_y : Q; min_z : Q;
    size_x : Q; size_y : Q; size_z : Q }.

Record Placement := mkPlacement
  { cargo_ref : Z; rotated : bool; pos_x : Q; pos_y : Q; pos_z : Q }.

Inductive OptimizerError : Type :=
| InvalidCargo (item_id : Z)
| CapacityExceeded (total max : Q)
| PlacementInfeasible (placed_ids unplaced_ids : list Z)
| TooManyItems (count limit : nat).

Inductive Result (A E : Type) : Type :=
| Ok (a : A)
| Err (e : E).
Arguments Ok {A E} a.
Arguments Err {A E} e.

Record LoadPlanReport := mkReport
  { placements : list Placement;
    analysis : LoadPlanAnalysis;
    report_status : string }.

(** *** Geometry primitives (4.1) *)

Definition Qltb (a b : Q) : bool := negb (Qle_bool b a).

(** The item's box at the origin; a rotated item swaps length and width. *)
Definition box_for (item : Cargo.row) (rot : bool) : Box :=
  mkBox 0 0 0
    (if rot then Cargo.length item else Cargo.width item)
    (if rot then Cargo.width item else Cargo.length item)
    (Cargo.height item).

Definition move_to (b : Box) (px py pz : Q) : Box :=
  mkBox px py pz (size_x b) (size_y b) (size_z b).

Definition placement_box (item : Cargo.row) (p : Placement) : Box :=
  move_to (box_for item (rotated p)) (pos_x p) (pos_y p) (pos_z p).

(** Modelled from the spec: [overlaps] of 4.1, true iff the interiors
    intersect on all three axes; first the open-interval test on one
    axis. *)
Definition axis_overlaps (a la b lb : Q) : bool :=
  Qltb a (b + lb) && Qltb b (a + la).

Definition overlaps (a b : Box) : bool :=
  axis_overlaps (min_x a) (size_x a) (min_x b) (size_x b)
  && axis_overlaps (min_y a) (size_y a) (min_y b) (size_y b)
  && axis_overlaps (min_z a) (size_z a) (min_z b) (size_z b).

Definition axis_within (lo len a la : Q) : bool :=
  Qle_bool lo a && Qle_bool (a + la) (lo + len).

(** [inside outer b]: [b] lies fully within [outer]. *)
Definition inside (outer b : Box) : bool :=
  axis_within (min_x outer) (size_x outer) (min_x b) (size_x b)
  && axis_within (min_y outer) (size_y outer) (min_y b) (size_y b)
  && axis_within (min_z outer) (size_z outer) (min_z b) (size_z b).

(** The bay: a box from the origin, width along x and length along y. *)
Definition bay_box (vehicle : Vehicle.row) : Box :=
  mkBox 0 0 0 (Vehicle.width vehicle) (Vehicle.length vehicle)
    (Vehicle.height vehicle).

Definition contains (bay : Vehicle.row) (b : Box) : bool :=
  inside (bay_box bay) b.

(** *** Ordering (4.2, steps 1 and 3) *)

Fixpoint insert_by {A} (before : A -> A -> bool) (a : A) (l : list A)
  : list A :=
  match l with
  | [] => [a]
  | b :: rest =>
      if before a b then a :: l else b :: insert_by before a rest
  end.

Definition sort_by {A} (before : A -> A -> bool) (l : list A) : list A :=
  fold_right (insert_by before) [] l.

Definition volume (item : Cargo.row) : Q :=
  Cargo.length item * Cargo.width item * Cargo.height item.

(** Heavier first; then larger volume first; then smaller id first. *)
Definition packs_before (a b : Cargo.row) : bool :=
  match Cargo.weight a ?= Cargo.weight b with
  | Gt => true
  | Lt => false
  | Eq =>
      match volume a ?= volume b with
      | Gt => true
      | Lt => false
      | Eq => (Cargo.cargo_id a <=? Cargo.cargo_id b)%Z
      end
  end.

Definition order_items (items : list Cargo.row) : list Cargo.row :=
  sort_by packs_before items.

(** Lowest z first, then lowest y, then lowest x. *)
Definition scans_before (a b : Box) : bool :=
  match min_z a ?= min_z b with
  | Lt => true
  | Gt => false
  | Eq =>
      match min_y a ?= min_y b with
      | Lt => true
      | Gt => false
      | Eq => Qle_bool (min_x a) (min_x b)
      end
  end.

(** *** The greedy pass (4.2, steps 2 to 6) *)

(** Modelled from the spec: the scan of step 3 of 4.2, with one
    candidate per free slab, at the slab's minimum corner.  The scan
    yields the accepted box, the slab it sits in and the other slabs. *)
Fixpoint scan_slabs (bay : Vehicle.row) (placed : list Box) (shape : Box)
  (seen slabs : list Box) : option (Box * Box * list Box) :=
  match slabs with
  | [] => None
  | s :: rest =>
      let cand := move_to shape (min_x s) (min_y s) (min_z s) in
      if inside s cand
         && forallb (fun b => negb (overlaps cand b)) placed
         && contains bay cand
      then Some (cand, s, rev seen ++ rest)
      else scan_slabs bay placed shape (s :: seen) rest
  end.

(** Unrotated over every slab first, then rotated. *)
Definition find_position (bay : Vehicle.row) (placed : list Box)
  (item : Cargo.row) (slabs : list Box)
  : option (bool * (Box * Box * list Box)) :=
  match scan_slabs bay placed (box_for item false) [] slabs with
  | Some hit => Some (false, hit)
  | None =>
      match scan_slabs bay placed (box_for item true) [] slabs with
      | Some hit => Some (true, hit)
      | None => None
      end
  end.

Definition nondegenerate (b : Box) : bool :=
  Qltb 0 (size_x b) && Qltb 0 (size_y b) && Qltb 0 (size_z b).

(** The residue of slab [s] once [b] sits at its minimum corner: the
    region above the item, the region beside it along x (over the slab's
    whole depth) and the region beyond it along y (over the item's width);
    empty regions are dropped. *)
Definition split_slab (s b : Box) : list Box :=
  filter nondegenerate
    [ mkBox (min_x b) (min_y b) (min_z b + size_z b)
        (size_x b) (size_y b) (size_z s - size_z b);
      mkBox (min_x b + size_x b) (min_y s) (min_z s)
        (size_x s - size_x b) (size_y s) (size_z s);
      mkBox (min_x s) (min_y b + size_y b) (min_z s)
        (size_x b) (size_y s - size_y b) (size_z s) ].

(** Modelled from the spec: the single greedy pass of 4.2 over the
    ordered items, with the free slabs, the boxes placed so far and the
    placements recorded so far. *)
Fixpoint pack (bay : Vehicle.row) (todo : list Cargo.row)
  (slabs placed : list Box) (done : list Placement)
  : Result (list Placement) OptimizerError :=
  match todo with
  | [] => Ok done
  | item :: rest =>
      match find_position bay placed item slabs with
      | None =>
          Err (PlacementInfeasible (map cargo_ref done)
                 (map Cargo.cargo_id todo))
      | Some (rot, (b, s, others)) =>
          pack bay rest
            (sort_by scans_before (split_slab s b ++ others))
            (b :: placed)
            (done ++ [mkPlacement (Cargo.cargo_id item) rot
                        (min_x b) (min_y b) (min_z b)])
      end
  end.

(** *** The checks that precede packing *)

Definition weight_sum (items : list Cargo.row) : Q :=
  fold_right (fun it acc => Cargo.weight it + acc) 0 items.

(** Some orientation of the item fits the bay, dimension by dimension. *)
Definition fits_bay (bay : Vehicle.row) (item : Cargo.row) : bool :=
  Qle_bool (Cargo.height item) (Vehicle.height bay)
  && ((Qle_bool (Cargo.width item) (Vehicle.width bay)
       && Qle_bool (Cargo.length item) (Vehicle.length bay))
      || (Qle_bool (Cargo.length item) (Vehicle.width bay)
          && Qle_bool (Cargo.width item) (Vehicle.length bay))).

(** Modelled from the spec: the three guards that run ahead of the
    packer.  The design document puts each of them before packing and
    words the weight bound first (4.2); they are taken in the order
    weight, item count, fit. *)
Definition precheck (cfg : Config) (items : list Cargo.row)
  (vehicle : Vehicle.row) : option OptimizerError :=
  if Qltb (Vehicle.max_load vehicle) (weight_sum items)
  then Some (CapacityExceeded (weight_sum items) (Vehicle.max_load vehicle))
  else if (max_items cfg <? List.length items)%nat
  then Some (TooManyItems (List.length items) (max_items cfg))
  else
    match find (fun it => negb (fits_bay vehicle it)) items with
    | Some it => Some (InvalidCargo (Cargo.cargo_id it))
    | None => None
    end.

(** Guards first, then whatever packer is plugged in, run on the ordered
    items. *)
Definition optimize_with
  (packer : Vehicle.row -> list Cargo.row ->
            Result (list Placement) OptimizerError)
  (cfg : Config) (items : list Cargo.row) (vehicle : Vehicle.row)
  : Result (list Placement) OptimizerError :=
  match precheck cfg items vehicle with
  | Some e => Err e
  | None => packer vehicle (order_items items)
  end.

(** The greedy pass from a single free slab, the whole bay. *)
Definition greedy (vehicle : Vehicle.row) (ordered : list Cargo.row)
  : Result (list Placement) OptimizerError :=
  pack vehicle ordered [bay_box vehicle] [] [].

(** Modelled from the spec: [optimize] of 4.2, the missing
    [optimize_placement] of [physics_engine.py]. *)
Definition optimize : Config -> list Cargo.row -> Vehicle.row ->
  Result (list Placement) OptimizerError :=
  optimize_with greedy.

(** *** Stability analyzer (4.3) *)

Definition lookup_item (items : list Cargo.row) (id : Z)
  : option Cargo.row :=
  find (fun it => (Cargo.cargo_id it =? id)%Z) items.

Definition box_center (b : Box) : Point :=
  mkPoint (min_x b + size_x b / 2) (min_y b + size_y b / 2)
    (min_z b + size_z b / 2).

(** Total weight and the three weighted sums of box centres; [None] when
    a placement names no known item, which the design document calls a
    fatal programming error. *)
Fixpoint moments (ps : list Placement) (items : list Cargo.row)
  : option (Q * Point) :=
  match ps with
  | [] => Some (0, mkPoint 0 0 0)
  | p :: rest =>
      match lookup_item items (cargo_ref p), moments rest items with
      | Some it, Some (w, m) =>
          let c := box_center (placement_box it p) in
          let wi := Cargo.weight it in
          Some (wi + w,
                mkPoint (wi * x c + x m) (wi * y c + y m) (wi * z c + z m))
      | _, _ => None
      end
  end.

Definition lateral_ratio (vehicle : Vehicle.row) (cog : Point) : Q :=
  Qabs (x cog - Vehicle.width vehicle / 2) / (Vehicle.width vehicle / 2).

Definition longitudinal_ratio (vehicle : Vehicle.row) (cog : Point) : Q :=
  Qabs (y cog - Vehicle.length vehicle / 2) / (Vehicle.length vehicle / 2).

Definition height_ratio (vehicle : Vehicle.row) (cog : Point) : Q :=
  z cog / Vehicle.height vehicle.

Definition penalty (cfg : Config) (vehicle : Vehicle.row) (cog : Point) : Q :=
  wL cfg * lateral_ratio vehicle cog
  + wF cfg * longitudinal_ratio vehicle cog
  + wH cfg * height_ratio vehicle cog.

(** Nearest integer, halves upwards. *)
Definition round (q : Q) : Z := Qfloor (q + 1 / 2).

Definition score (cfg : Config) (vehicle : Vehicle.row) (cog : Point) : Z :=
  Z.min 100 (Z.max 0 (round (100 * Qmax 0 (1 - penalty cfg vehicle cog)))).

Definition warnings_for (cfg : Config) (vehicle : Vehicle.row) (cog : Point)
  (s : Z) : list string :=
  (if Qltb 0.5 (lateral_ratio vehicle cog)
   then ["lateral imbalance"%string] else [])
  ++ (if Qltb 0.6 (height_ratio vehicle cog)
      then ["center of gravity too high"%string] else [])
  ++ (if Qle_bool 50 (inject_Z s) && Qltb (inject_Z s) (safety_threshold cfg)
      then ["marginal stability"%string] else []).

(** Modelled from the spec: [analyze] of 4.3, the missing
    [analyze_load] of [physics_engine.py]; [None] is the fatal broken
    cross-reference.  The document does not say what an empty load
    gives; here its total weight is 0 and, division by 0 being 0 in [Q],
    its centre is the origin. *)
Definition analyze (cfg : Config) (ps : list Placement)
  (items : list Cargo.row) (vehicle : Vehicle.row)
  : option LoadPlanAnalysis :=
  match moments ps items with
  | None => None
  | Some (w, m) =>
      let cog := mkPoint (x m / w) (y m / w) (z m / w) in
      let s := score cfg vehicle cog in
      Some (mkAnalysis w cog (inject_Z s)
              (Qle_bool w (Vehicle.max_load vehicle)
               && Qle_bool (safety_threshold cfg) (inject_Z s))
              (warnings_for cfg vehicle cog s))
  end.

(** *** Report (4.4) and the whole core *)

Definition buildReport (ps : list Placement) (a : LoadPlanAnalysis)
  : LoadPlanReport :=
  mkReport ps a (status_of a).

(** Modelled from the spec: one invocation of the core, an optimizer call
    followed by an analyzer call on its placements (section 5). *)
Definition plan_load (cfg : Config) (items : list Cargo.row)
  (vehicle : Vehicle.row)
  : Result (list Placement * option LoadPlanAnalysis) OptimizerError :=
  match optimize cfg items vehicle with
  | Err e => Err e
  | Ok ps => Ok (ps, analyze cfg ps items vehicle)
  end.

(** The boxes of a packing: the i-th placement is that of the i-th item
    in packing order. *)
Definition boxes_of (ordered : list Cargo.row) (ps : list Placement)
  : list Box :=
  map (fun ip => placement_box (fst ip) (snd ip)) (combine ordered ps).

(** Interiors of two boxes meet on an axis, and on all three. *)
Definition axis_meet (a la b lb : Q) : Prop :=
  a < b + lb /\ b < a + la.

Definition interiors_intersect (a b : Box) : Prop :=
  axis_meet (min_x a) (size_x a) (min_x b) (size_x b)
  /\ axis_meet (min_y a) (size_y a) (min_y b) (size_y b)
  /\ axis_meet (min_z a) (size_z a) (min_z b) (size_z b).

End Core.

(** ** What a request fetches and what it stores *)

(** The vehicle the handler's first query yields. *)
Definition fetched_vehicle {P} (plan : LoadPlanCreate.t) (w : world P)
  : option Vehicle.row :=
  find (fun r => Vehicle.vehicle_id r =? LoadPlanCreate.vehicle_id plan)
    (vehicles (db w)).

(** The cargo rows the handler's second query yields. *)
Definition fetched_cargo {P} (plan : LoadPlanCreate.t) (w : world P)
  : list Cargo.row :=
  cargo_matching (LoadPlanCreate.cargo_items plan) (cargo (db w)).

(** The tuple of values the handler's INSERT binds. *)
Definition plan_row (user_id : Z) (plan : LoadPlanCreate.t)
  (analysis : LoadPlanAnalysis) : LoadPlan.row :=
  LoadPlan.mk user_id (LoadPlanCreate.vehicle_id plan)
    (stability_score analysis)
    (x (center_of_gravity analysis))
    (y (center_of_gravity analysis))
    (z (center_of_gravity analysis))
    (status_of analysis).

(** The request ids that name a stored cargo row. *)
Definition known_ids (tbl : list Cargo.row) (ids : list Z) : list Z :=
  filter (fun i => existsb (fun r => Cargo.cargo_id r =? i) tbl) ids.

(** The reading of "an optimizer error stops the request" on one run:
    when the optimizer hands back an error value, no call to
    [analyze_load] receives it and no plan is stored. *)
Definition error_stops_request {E}
  (eng : PhysicsEngine (Core.Result (list Core.Placement) E))
  (int : string -> outcome Z) (plan : LoadPlanCreate.t)
  (current_user : TokenData)
  (w : world (Core.Result (list Core.Placement) E)) : Prop :=
  forall err,
    optimize_placement eng (fetched_cargo plan w) (fetched_vehicle plan w)
    = Returned (Core.Err err) ->
    let w' := snd (generate_plan eng int plan current_user w) in
    (forall items vehicle,
        ~ In (CallAnalyze (Core.Err err) items vehicle) (calls w'))
    /\ load_plans (db w') = load_plans (db w).

(** The reading of "both engine calls are made, once each and in
    order" on one run: the calls the run adds to the log are one
    [optimize_placement] followed by one [analyze_load]. *)
Definition both_engine_calls_made {P} (eng : PhysicsEngine P)
  (int : string -> outcome Z) (plan : LoadPlanCreate.t)
  (current_user : TokenData) (w : world P) : Prop :=
  exists p,
    calls (snd (generate_plan eng int plan current_user w))
    = calls w
      ++ [CallOptimize (fetched_cargo plan w) (fetched_vehicle plan w);
          CallAnalyze p (fetched_cargo plan w) (fetched_vehicle plan w)].

(** The columns of a plan row that come from an analysis hold that
    analysis's values. *)
Definition built_from (row : LoadPlan.row) (a : LoadPlanAnalysis) : Prop :=
  LoadPlan.stability_score row = stability_score a
  /\ LoadPlan.center_of_gravity_x row = x (center_of_gravity a)
  /\ LoadPlan.center_of_gravity_y row = y (center_of_gravity a)
  /\ LoadPlan.center_of_gravity_z row = z (center_of_gravity a)
  /\ LoadPlan.status row = (if is_safe a then "approved" else "draft").


(** ** Worked data: a small database, two engines, a numeral reader *)

Module Demo.

Import Core.

Definition digit_of (c : Ascii.ascii) : option Z :=
  let n := Z.of_nat (Ascii.nat_of_ascii c) in
  if (48 <=? n) && (n <=? 57) then Some (n - 48) else None.

Fixpoint digits_value (acc : Z) (s : string) : option Z :=
  match s with
  | EmptyString => Some acc
  | String c rest =>
      match digit_of c with
      | Some d => digits_value (10 * acc + d) rest
      | None => None
      end
  end.

(** [int] on the plain decimal numerals that [login] writes into [sub]. *)
Definition decimal_int (s : string) : outcome Z :=
  match s with
  | EmptyString => Raised "ValueError"
  | _ =>
      match digits_value 0 s with
      | Some n => Returned n
      | None => Raised "ValueError"
      end
  end.

Definition truck : Vehicle.row := Vehicle.mk 1 "truck" 1000%Q 6%Q 2.4%Q 2%Q.

Definition crate (id : Z) (kg : Q) : Cargo.row :=
  Cargo.mk id "crate" kg 1%Q 1%Q 1%Q.

Definition store : database :=
  mkDb [User.mk 7 "ann" "ann@example.org" "hash" "planner"]
    [truck]
    [crate 1 600%Q; crate 2 600%Q; crate 3 200%Q; crate 4 100%Q]
    [].

Definition ann : TokenData := mkToken "7" "ann@example.org" "planner".

Definition start : world (Result (list Placement) OptimizerError) :=
  mkWorld store [].

(** An engine built on the core: the optimizer's result, error or not, is
    what [optimize_placement] returns; the analyzer accepts placement
    lists only. *)
Definition reference_engine (cfg : Config)
  : PhysicsEngine (Result (list Placement) OptimizerError) :=
  mkEngine _
    (fun items vehicle =>
       match vehicle with
       | Some v => Returned (optimize cfg items v)
       | None => Raised "TypeError"
       end)
    (fun res items vehicle =>
       match res, vehicle with
       | Ok ps, Some v =>
           match analyze cfg ps items v with
           | Some a => Returned a
           | None => Raised "KeyError"
           end
       | _, _ => Raised "TypeError"
       end).

Definition flat_analysis : LoadPlanAnalysis :=
  mkAnalysis 0%Q (mkPoint 0%Q 0%Q 0%Q) 100%Q true [].

(** The same optimizer with an analyzer that scores whatever it is given,
    an error value included, as an empty load. *)
Definition lenient_engine (cfg : Config)
  : PhysicsEngine (Result (list Placement) OptimizerError) :=
  mkEngine _
    (optimize_placement (reference_engine cfg))
    (fun res items vehicle =>
       match res, vehicle with
       | Ok ps, Some v =>
           match analyze cfg ps items v with
           | Some a => Returned a
           | None => Returned flat_analysis
           end
       | _, _ => Returned flat_analysis
       end).

(** An engine that looks at nothing: no placements, a flat analysis. *)
Definition blind_engine
  : PhysicsEngine (Result (list Placement) OptimizerError) :=
  mkEngine _
    (fun _ _ => Returned (Ok []))
    (fun _ _ _ => Returned flat_analysis).

(** Three requests: two light crates and an id that names nothing; two
    crates that together outweigh the truck; a vehicle id that names
    nothing. *)
Definition light_plan : LoadPlanCreate.t := LoadPlanCreate.mk 1 [3; 4; 9].
Definition heavy_plan : LoadPlanCreate.t := LoadPlanCreate.mk 1 [1; 2].
Definition ghost_plan : LoadPlanCreate.t := LoadPlanCreate.mk 5 [3].

Definition light_items : list Cargo.row := [crate 3 200%Q; crate 4 100%Q].

Definition light_placements : list Placement :=
  [mkPlacement 3 false 0%Q 0%Q 0%Q; mkPlacement 4 false 1%Q 0%Q 0%Q].

Definition light_analysis : LoadPlanAnalysis :=
  Eval vm_compute in
    match analyze default_config light_placements light_items truck with
    | Some a => a
    | None => flat_analysis
    end.

Definition overweight : OptimizerError := CapacityExceeded 1200%Q 1000%Q.

Definition heavy_items : list Cargo.row := [crate 1 600%Q; crate 2 600%Q].

(** Four items of different shapes and weights, and their packing. *)
Definition mixed_items : list Cargo.row :=
  [ Cargo.mk 1 "drum" 40%Q 1%Q 1%Q 1%Q;
    Cargo.mk 2 "pallet" 250%Q 2%Q 1.2%Q 1%Q;
    Cargo.mk 3 "beam" 90%Q 5%Q 0.5%Q 0.5%Q;
    Cargo.mk 4 "case" 250%Q 1%Q 1%Q 1.5%Q ].

Definition mixed_placements : list Placement :=
  Eval vm_compute in
    match optimize default_config mixed_items truck with
    | Ok ps => ps
    | Err _ => []
    end.

End Demo.

(** ** The other handlers of [main.py]

    The account, vehicle and cargo handlers run in the same monad as
    [generate_plan].  What they take from the absent [auth] module, the
    builtins [str] and [int] and the keys and timestamps the database
    hands out are parameters of [Section Handlers]. *)

Module UserLogin.
Record t := mk { email : string; password : string }.
End UserLogin.

Module UserCreate.
Record t := mk
  { name : string; email : string; password : string; role : string }.
End UserCreate.

Module VehicleCreate.
Record t := mk
  { vehicle_type : string; max_load : Q;
    length : Q; width : Q; height : Q }.
End VehicleCreate.

Module CargoCreate.
Record t := mk
  { name : string; weight : Q; length : Q; width : Q; height : Q }.
End CargoCreate.

Module UserOut.
(** The columns [register] and [me] name: a user without its hash. *)
Record row := mk
  { user_id : Z; name : string; email : string; role : string }.
End UserOut.

Definition user_out (u : User.row) : UserOut.row :=
  UserOut.mk (User.user_id u) (User.name u) (User.email u) (User.role u).

(** What [login] returns. *)
Record Token := mkTokenResponse
  { access_token : string; token_type : string; user : User.row }.

(** [HTTPException(status_code=..., detail=...)] as the exception a
    handler raises. *)
Definition HTTPException (status_code : nat) (detail : string) : exn :=
  String.append "HTTPException "
    (String.append (NilEmpty.string_of_uint (Nat.to_uint status_code))
       (String.append ": " detail)).

Definition raise {P A} (e : exn) : M P A := fun w => (Raised e, w).

(** *** More cursor operations *)

(** [SELECT * FROM users WHERE email=%s] followed by [fetchone]. *)
Definition select_user_by_email {P} (e : string) : M P (option User.row) :=
  fun w =>
    (Returned (find (fun r => String.eqb (User.email r) e) (users (db w))),
     w).

(** [SELECT user_id FROM users WHERE email=%s] followed by [fetchone]. *)
Definition select_user_id_by_email {P} (e : string) : M P (option Z) :=
  fun w =>
    (Returned
       (option_map User.user_id
          (find (fun r => String.eqb (User.email r) e) (users (db w)))),
     w).

(** [SELECT user_id,name,email,role,created_at FROM users WHERE user_id=%s]
    followed by [fetchone]. *)
Definition select_user_by_id {P} (id : Z) : M P (option UserOut.row) :=
  fun w =>
    (Returned
       (option_map user_out
          (find (fun r => User.user_id r =? id) (users (db w)))),
     w).

Definition with_user (d : database) (r : User.row) : database :=
  mkDb (users d ++ [r]) (vehicles d) (cargo d) (load_plans d).

Definition with_vehicle (d : database) (r : Vehicle.row) : database :=
  mkDb (users d) (vehicles d ++ [r]) (cargo d) (load_plans d).

Definition with_cargo (d : database) (r : Cargo.row) : database :=
  mkDb (users d) (vehicles d) (cargo d ++ [r]) (load_plans d).

(** [INSERT INTO users (name,email,password_hash,role) ... RETURNING
    user_id,name,email,role,created_at]: the key is the database's. *)
Definition insert_user {P} (next_id : database -> Z)
  (name email password_hash role : string) : M P UserOut.row :=
  fun w =>
    let r := User.mk (next_id (db w)) name email password_hash role in
    (Returned (user_out r), mkWorld (with_user (db w) r) (calls w)).

(** [INSERT INTO vehicles (vehicle_type,max_load,length,width,height) ...
    RETURNING *] *)
Definition insert_vehicle {P} (next_id : database -> Z)
  (vehicle_type : string) (max_load length width height : Q)
  : M P Vehicle.row :=
  fun w =>
    let r := Vehicle.mk (next_id (db w)) vehicle_type max_load length width
               height in
    (Returned r, mkWorld (with_vehicle (db w) r) (calls w)).

(** [INSERT INTO cargo (name,weight,length,width,height) ... RETURNING *] *)
Definition insert_cargo {P} (next_id : database -> Z)
  (name : string) (weight length width height : Q) : M P Cargo.row :=
  fun w =>
    let r := Cargo.mk (next_id (db w)) name weight length width height in
    (Returned r, mkWorld (with_cargo (db w) r) (calls w)).

(** [ORDER BY created_at DESC]: rows by decreasing timestamp. *)
Fixpoint insert_desc {A} (key : A -> Z) (a : A) (l : list A) : list A :=
  match l with
  | [] => [a]
  | b :: rest =>
      if key b <=? key a then a :: l else b :: insert_desc key a rest
  end.

Definition order_by_desc {A} (key : A -> Z) (l : list A) : list A :=
  fold_right (insert_desc key) [] l.

(** [SELECT * FROM vehicles ORDER BY created_at DESC] and [fetchall]. *)
Definition select_vehicles {P} (created_at : Vehicle.row -> Z)
  : M P (list Vehicle.row) :=
  fun w => (Returned (order_by_desc created_at (vehicles (db w))), w).

(** [SELECT * FROM cargo ORDER BY created_at DESC] and [fetchall]. *)
Definition select_all_cargo {P} (created_at : Cargo.row -> Z)
  : M P (list Cargo.row) :=
  fun w => (Returned (order_by_desc created_at (cargo (db w))), w).

Section Handlers.

Context {P : Type}.

(** From [auth]; a call may raise. *)
Variable verify_password : string -> string -> outcome bool.
Variable get_password_hash : string -> outcome string.
Variable create_access_token : TokenData -> Z -> outcome string.
Variable ACCESS_TOKEN_EXPIRE_MINUTES : Z.

(** Python's [str] on an integer and [int] on a string. *)
Variable str : Z -> string.
Variable int : string -> outcome Z.

(** The keys the database gives new rows, and the [created_at] it
    recorded for a row. *)
Variable next_user_id : database -> Z.
Variable next_vehicle_id : database -> Z.
Variable next_cargo_id : database -> Z.
Variable vehicle_created_at : Vehicle.row -> Z.
Variable cargo_created_at : Cargo.row -> Z.

(** The payload [login] has signed for a user. *)
Definition token_data (u : User.row) : TokenData :=
  mkToken (str (User.user_id u)) (User.email u) (User.role u).

Definition login (user_login : UserLogin.t) : M P Token :=
  user <- select_user_by_email (UserLogin.email user_login) ;;
  match user with
  | None => raise (HTTPException 401 "Invalid email or password")
  | Some user =>
      verified <- lift (verify_password (UserLogin.password user_login)
                          (User.password_hash user)) ;;
      if negb verified
      then raise (HTTPException 401 "Invalid email or password")
      else
        access_token <- lift (create_access_token (token_data user)
                                ACCESS_TOKEN_EXPIRE_MINUTES) ;;
        ret (mkTokenResponse access_token "bearer" user)
  end.

Definition register (user_create : UserCreate.t) : M P UserOut.row :=
  existing <- select_user_id_by_email (UserCreate.email user_create) ;;
  match existing with
  | Some _ => raise (HTTPException 400 "Email already registered")
  | None =>
      password_hash <- lift (get_password_hash
                               (UserCreate.password user_create)) ;;
      insert_user next_user_id (UserCreate.name user_create)
        (UserCreate.email user_create) password_hash
        (UserCreate.role user_create)
  end.

Definition me (current_user : TokenData) : M P (option UserOut.row) :=
  user_id <- lift (int (sub current_user)) ;;
  select_user_by_id user_id.

Definition get_vehicles (current_user : TokenData)
  : M P (list Vehicle.row) :=
  select_vehicles vehicle_created_at.

Definition create_vehicle (vehicle : VehicleCreate.t)
  (current_user : TokenData) : M P Vehicle.row :=
  insert_vehicle next_vehicle_id
    (VehicleCreate.vehicle_type vehicle) (VehicleCreate.max_load vehicle)
    (VehicleCreate.length vehicle) (VehicleCreate.width vehicle)
    (VehicleCreate.height vehicle).

Definition get_cargo (current_user : TokenData) : M P (list Cargo.row) :=
  select_all_cargo cargo_created_at.

Definition create_cargo (cargo : CargoCreate.t) (current_user : TokenData)
  : M P Cargo.row :=
  insert_cargo next_cargo_id
    (CargoCreate.name cargo) (CargoCreate.weight cargo)
    (CargoCreate.length cargo) (CargoCreate.width cargo)
    (CargoCreate.height cargo).

End Handlers.

(** The account a login with this e-mail is checked against: the first
    stored user with it. *)
Definition stored_user {P} (e : string) (w : world P) : option User.row :=
  find (fun r => String.eqb (User.email r) e) (users (db w)).

(** ** Worked data for the account, vehicle and cargo handlers *)

Module Desk.

Definition get_password_hash (pw : string) : outcome string :=
  Returned (String.append "hash:" pw).

Definition verify_password (pw h : string) : outcome bool :=
  Returned (String.eqb h (String.append "hash:" pw)).

Definition create_access_token (t : TokenData) (minutes : Z)
  : outcome string :=
  Returned (String.append "token:" (sub t)).

Definition str (n : Z) : string := NilEmpty.string_of_int (Z.to_int n).

Definition next_key (ids : list Z) : Z := 1 + fold_right Z.max 0 ids.

Definition next_user_id (d : database) : Z :=
  next_key (map User.user_id (users d)).

Definition next_vehicle_id (d : database) : Z :=
  next_key (map Vehicle.vehicle_id (vehicles d)).

Definition next_cargo_id (d : database) : Z :=
  next_key (map Cargo.cargo_id (cargo d)).

Definition ann_row : User.row :=
  User.mk 7 "ann" "ann@example.org" "hash:secret" "planner".

Definition office : database :=
  mkDb [ann_row] [Demo.truck]
    [Demo.crate 1 600%Q; Demo.crate 2 600%Q; Demo.crate 3 200%Q]
    [].

Definition opened
  : world (Core.Result (list Core.Placement) Core.OptimizerError) :=
  mkWorld office [].

Definition ann_login : UserLogin.t :=
  UserLogin.mk "ann@example.org" "secret".

Definition bob_signup : UserCreate.t :=
  UserCreate.mk "bob" "bob@example.org" "pass" "driver".

Definition van : VehicleCreate.t :=
  VehicleCreate.mk "van" 800%Q 3%Q 1.8%Q 1.9%Q.

Definition box : CargoCreate.t :=
  CargoCreate.mk "box" 15%Q 0.5%Q 0.5%Q 0.5%Q.

(** A token whose subject is no numeral, and one for a user id that is
    not stored. *)
Definition mallory : TokenData := mkToken "abc" "m@example.org" "planner".
Definition stranger : TokenData := mkToken "99" "s@example.org" "planner".

Definition minutes : Z := 30.

Definition ann_data : TokenData := mkToken "7" "ann@example.org" "planner".

Definition ann_token : Token := mkTokenResponse "token:7" "bearer" ann_row.

Definition wrong_login : UserLogin.t :=
  UserLogin.mk "ann@example.org" "guess".

Definition bob_out : UserOut.row := UserOut.mk 8 "bob" "bob@example.org" "driver".

Definition bob_row : User.row :=
  User.mk 8 "bob" "bob@example.org" "hash:pass" "driver".

Definition van_row : Vehicle.row := Vehicle.mk 2 "van" 800%Q 3%Q 1.8%Q 1.9%Q.

Definition box_row : Cargo.row := Cargo.mk 4 "box" 15%Q 0.5%Q 0.5%Q 0.5%Q.

Definition office_plan : LoadPlanCreate.t := LoadPlanCreate.mk 1 [3; 1; 3].

Definition flat_row : LoadPlan.row :=
  plan_row 7 office_plan Demo.flat_analysis.

End Desk.

(** * Properties of the request layer *)

Section HandlerProperties.

Context {P : Type}.
Variable eng : PhysicsEngine P.
Variable int : string -> outcome Z.

(** The handler is straight-line code: its run is fixed by what the two
    engine calls and [int] give back, in that order. *)
Lemma generate_plan_unfold plan user (w : world P) :
  generate_plan eng int plan user w =
  let items := fetched_cargo plan w in
  let v := fetched_vehicle plan w in
  match optimize_placement eng items v with
  | Raised e => (Raised e, mkWorld (db w) (calls w ++ [CallOptimize items v]))
  | Returned p =>
      let log := calls w ++ [CallOptimize items v; CallAnalyze p items v] in
      match analyze_load eng p items v with
      | Raised e => (Raised e, mkWorld (db w) log)
      | Returned a =>
          match int (sub user) with
          | Raised e => (Raised e, mkWorld (db w) log)
          | Returned uid =>
              (Returned (plan_row uid plan a),
               mkWorld (with_plan (db w) (plan_row uid plan a)) log)
          end
      end
  end.
Proof.
  unfold generate_plan, bind, select_vehicle, select_cargo, call_optimize,
    call_analyze, lift, insert_load_plan, fetched_cargo, fetched_vehicle,
    plan_row.
  cbn.
  destruct (optimize_placement eng _ _) as [p|e]; [|reflexivity].
  cbn. rewrite <- app_assoc. cbn.
  destruct (analyze_load eng p _ _) as [a|e]; [|reflexivity].
  destruct (int (sub user)) as [uid|e]; reflexivity.
Qed.

(** A request that completes went through both engine calls and [int]. *)
Lemma generate_plan_completes_inv plan user (w w' : world P) row :
  generate_plan eng int plan user w = (Returned row, w') ->
  exists p a uid,
    optimize_placement eng (fetched_cargo plan w) (fetched_vehicle plan w)
    = Returned p
    /\ analyze_load eng p (fetched_cargo plan w) (fetched_vehicle plan w)
       = Returned a
    /\ int (sub user) = Returned uid
    /\ row = plan_row uid plan a
    /\ w' = mkWorld (with_plan (db w) row)
              (calls w ++ [CallOptimize (fetched_cargo plan w)
                             (fetched_vehicle plan w);
                           CallAnalyze p (fetched_cargo plan w)
                             (fetched_vehicle plan w)]).
Proof.
  rewrite generate_plan_unfold. cbn zeta.
  destruct (optimize_placement eng _ _) as [p|e] eqn:Hopt; [|discriminate].
  destruct (analyze_load eng p _ _) as [a|e] eqn:Hana; [|discriminate].
  destruct (int (sub user)) as [uid|e] eqn:Hint; [|discriminate].
  intros H. inversion H; subst.
  exists p, a, uid. repeat split; reflexivity || assumption.
Qed.

Lemma status_of_two_values (a : LoadPlanAnalysis) :
  status_of a = "approved" \/ status_of a = "draft".
Proof. unfold status_of. destruct (is_safe a); [left|right]; reflexivity. Qed.

(** C1: whenever [analyze_load] returns an analysis to the handler (and
    the token's subject reads as a number), the request completes with a
    row whose status is "approved" if the analysis is safe and "draft"
    otherwise, that row is the one appended to [load_plans], and the
    status is one of these two strings. *)
Theorem generate_plan_status_derived plan user (w : world P) p a uid :
  optimize_placement eng (fetched_cargo plan w) (fetched_vehicle plan w)
  = Returned p ->
  analyze_load eng p (fetched_cargo plan w) (fetched_vehicle plan w)
  = Returned a ->
  int (sub user) = Returned uid ->
  exists row w',
    generate_plan eng int plan user w = (Returned row, w')
    /\ load_plans (db w') = load_plans (db w) ++ [row]
    /\ LoadPlan.status row = (if is_safe a then "approved" else "draft")
    /\ (LoadPlan.status row = "approved" \/ LoadPlan.status row = "draft").
Proof.
  intros Hopt Hana Hint.
  rewrite generate_plan_unfold. cbn zeta. rewrite Hopt, Hana, Hint.
  eexists. eexists. split; [reflexivity|].
  split; [reflexivity|]. split; [reflexivity|].
  apply status_of_two_values.
Qed.

(** C3: the row a completed request stores holds the analysis's
    [stability_score], the three coordinates of its [center_of_gravity]
    and the derived status, where the analysis is the one [analyze_load]
    returned for this request; the row is the last of [load_plans]. *)
Theorem generate_plan_row_fields plan user (w w' : world P) row :
  generate_plan eng int plan user w = (Returned row, w') ->
  exists p a,
    optimize_placement eng (fetched_cargo plan w) (fetched_vehicle plan w)
    = Returned p
    /\ analyze_load eng p (fetched_cargo plan w) (fetched_vehicle plan w)
       = Returned a
    /\ load_plans (db w') = load_plans (db w) ++ [row]
    /\ LoadPlan.stability_score row = stability_score a
    /\ LoadPlan.center_of_gravity_x row = x (center_of_gravity a)
    /\ LoadPlan.center_of_gravity_y row = y (center_of_gravity a)
    /\ LoadPlan.center_of_gravity_z row = z (center_of_gravity a)
    /\ LoadPlan.status row = (if is_safe a then "approved" else "draft")
    /\ (LoadPlan.status row = "draft" \/ LoadPlan.status row = "approved").
Proof.
  intros H.
  destruct (generate_plan_completes_inv _ _ _ _ _ H)
    as (p & a & uid & Hopt & Hana & _ & -> & ->).
  exists p, a. cbn.
  repeat (split; [reflexivity || assumption|]).
  destruct (status_of_two_values a); [right|left]; assumption.
Qed.


Lemma plan_row_built_from uid plan a : built_from (plan_row uid plan a) a.
Proof. unfold built_from, plan_row, status_of. cbn. repeat split. Qed.

(** C4, as the code has it: every request calls [optimize_placement]
    exactly once, first, on the fetched rows and vehicle, and
    [analyze_load] at most once, after it.  If the optimizer call
    raises, the request ends with that exception and [analyze_load] is
    not called.  If it returns, [analyze_load] is called exactly once,
    on the value returned and the same rows and vehicle, and what that
    call gives decides the request: its exception ends the request, its
    analysis is the one the returned row is built from.  There is no
    retry and no further call. *)
Theorem generate_plan_calls plan user (w : world P) :
  let items := fetched_cargo plan w in
  let v := fetched_vehicle plan w in
  let run := generate_plan eng int plan user w in
  (exists tail,
      calls (snd run) = calls w ++ CallOptimize items v :: tail
      /\ (tail = [] \/ exists p, tail = [CallAnalyze p items v]))
  /\ (forall e,
         optimize_placement eng items v = Raised e ->
         fst run = Raised e
         /\ calls (snd run) = calls w ++ [CallOptimize items v])
  /\ (forall p,
         optimize_placement eng items v = Returned p ->
         calls (snd run)
         = calls w ++ [CallOptimize items v; CallAnalyze p items v]
         /\ (forall e,
                analyze_load eng p items v = Raised e -> fst run = Raised e)
         /\ (forall a uid,
                analyze_load eng p items v = Returned a ->
                int (sub user) = Returned uid ->
                exists row, fst run = Returned row /\ built_from row a)).
Proof.
  intros items v run. subst items v run.
  rewrite generate_plan_unfold. cbn zeta.
  destruct (optimize_placement eng _ _) as [p|e] eqn:Hopt.
  - split; [|split].
    + exists [CallAnalyze p (fetched_cargo plan w) (fetched_vehicle plan w)].
      split; [|right; exists p; reflexivity].
      destruct (analyze_load eng p _ _); [|reflexivity].
      destruct (int (sub user)); reflexivity.
    + discriminate.
    + intros p' Hp. inversion Hp; subst p'. split; [|split].
      * destruct (analyze_load eng p _ _); [|reflexivity].
        destruct (int (sub user)); reflexivity.
      * intros e Hana. rewrite Hana. reflexivity.
      * intros a uid Hana Hint. rewrite Hana, Hint.
        eexists. split; [reflexivity|]. apply plan_row_built_from.
  - split; [|split].
    + exists []. split; [reflexivity|left; reflexivity].
    + intros e' He. inversion He; subst e'. split; reflexivity.
    + discriminate.
Qed.

(** An optimizer call that raises ends the request there: the exception
    reaches the caller, the analyzer is not called, nothing is stored. *)
Lemma generate_plan_optimizer_raises plan user (w : world P) e :
  optimize_placement eng (fetched_cargo plan w) (fetched_vehicle plan w)
  = Raised e ->
  generate_plan eng int plan user w =
  (Raised e,
   mkWorld (db w)
     (calls w ++ [CallOptimize (fetched_cargo plan w)
                    (fetched_vehicle plan w)])).
Proof.
  intros Hopt. rewrite generate_plan_unfold. cbn zeta. rewrite Hopt.
  reflexivity.
Qed.

Lemma find_absent {A} (f : A -> bool) (l : list A) :
  (forall a, In a l -> f a = false) -> find f l = None.
Proof.
  induction l as [|a l IH]; intros H; [reflexivity|].
  cbn. rewrite (H a (or_introl eq_refl)).
  apply IH. intros b Hb. apply H. right. exact Hb.
Qed.

Lemma fetched_vehicle_absent plan (w : world P) :
  (forall r, In r (vehicles (db w)) ->
             Vehicle.vehicle_id r <> LoadPlanCreate.vehicle_id plan) ->
  fetched_vehicle plan w = None.
Proof.
  intros H. apply find_absent. intros r Hr.
  apply Z.eqb_neq. apply H. exact Hr.
Qed.

(** C8: when no stored vehicle has the requested id, the first thing the
    handler does after its two queries is call [optimize_placement] with
    the fetched rows and [None]; if the engine and [int] return, the
    request completes with a plan for the requested vehicle id; and any
    exception the request ends with is one raised by the engine or by
    [int], none of the handler's own. *)
Theorem generate_plan_unknown_vehicle plan user (w : world P) :
  (forall r, In r (vehicles (db w)) ->
             Vehicle.vehicle_id r <> LoadPlanCreate.vehicle_id plan) ->
  let items := fetched_cargo plan w in
  let run := generate_plan eng int plan user w in
  (exists rest, calls (snd run) = calls w ++ CallOptimize items None :: rest)
  /\ (forall p a uid,
         optimize_placement eng items None = Returned p ->
         analyze_load eng p items None = Returned a ->
         int (sub user) = Returned uid ->
         fst run = Returned (plan_row uid plan a)
         /\ LoadPlan.vehicle_id (plan_row uid plan a)
            = LoadPlanCreate.vehicle_id plan)
  /\ (forall e,
         fst run = Raised e ->
         optimize_placement eng items None = Raised e
         \/ (exists p, optimize_placement eng items None = Returned p
                       /\ analyze_load eng p items None = Raised e)
         \/ int (sub user) = Raised e).
Proof.
  intros Hnone items run. subst items run.
  rewrite generate_plan_unfold. cbn zeta.
  rewrite (fetched_vehicle_absent _ _ Hnone).
  split; [|split].
  - destruct (optimize_placement eng _ _) as [p|e]; [|eexists; reflexivity].
    destruct (analyze_load eng p _ _) as [a|e]; [|eexists; reflexivity].
    destruct (int (sub user)); eexists; reflexivity.
  - intros p a uid Hopt Hana Hint. rewrite Hopt, Hana, Hint.
    split; reflexivity.
  - intros e.
    destruct (optimize_placement eng _ _) as [p|e1]; cbn.
    + destruct (analyze_load eng p _ _) as [a|e2] eqn:Hana; cbn.
      * destruct (int (sub user)) as [uid|e3]; cbn; [discriminate|].
        intros H. inversion H. right. right. reflexivity.
      * intros H. inversion H; subst. right. left.
        exists p. split; [reflexivity|assumption].
    + intros H. inversion H. left. reflexivity.
Qed.

Lemma cargo_matching_In ids tbl r :
  In r (cargo_matching ids tbl) <-> In r tbl /\ In (Cargo.cargo_id r) ids.
Proof.
  unfold cargo_matching. rewrite filter_In, existsb_exists.
  split.
  - intros [Hr (i & Hi & Heq)]. apply Z.eqb_eq in Heq. subst i.
    split; assumption.
  - intros [Hr Hi]. split; [assumption|].
    exists (Cargo.cargo_id r). split; [assumption|apply Z.eqb_refl].
Qed.

Lemma cargo_matching_known ids tbl :
  cargo_matching (known_ids tbl ids) tbl = cargo_matching ids tbl.
Proof.
  unfold cargo_matching. apply filter_ext_in. intros r Hr.
  apply eq_true_iff_eq. rewrite !existsb_exists. split.
  - intros (i & Hi & Heq). unfold known_ids in Hi.
    apply filter_In in Hi. exists i. split; [apply Hi|assumption].
  - intros (i & Hi & Heq). exists i. split; [|assumption].
    unfold known_ids. apply filter_In. split; [assumption|].
    apply existsb_exists. exists r. split; [assumption|].
    apply Z.eqb_eq in Heq. subst i. apply Z.eqb_refl.
Qed.


(** C9: request ids that name no stored cargo row are dropped without
    a word.  The run of the request (its result, the database after it,
    the engine calls made) is the run of the same request with those ids
    removed; the rows the engine is called on are the stored rows whose
    id is in the request, and nothing else; when the engine returns on
    those rows (and [int] reads the subject) the request completes and
    the plan built from that analysis is stored as the new last row of
    [load_plans]; and an exception the request ends with is one the
    engine or [int] raised, never one about a missing id. *)
Theorem generate_plan_drops_unknown_cargo vid ids user (w : world P) :
  let plan := LoadPlanCreate.mk vid ids in
  let found := fetched_cargo plan w in
  let v := fetched_vehicle plan w in
  let run := generate_plan eng int plan user w in
  run = generate_plan eng int
          (LoadPlanCreate.mk vid (known_ids (cargo (db w)) ids)) user w
  /\ (forall r, In r found <->
                In r (cargo (db w)) /\ In (Cargo.cargo_id r) ids)
  /\ (exists rest, calls (snd run) = calls w ++ CallOptimize found v :: rest)
  /\ (forall p a uid,
         optimize_placement eng found v = Returned p ->
         analyze_load eng p found v = Returned a ->
         int (sub user) = Returned uid ->
         exists row,
           fst run = Returned row
           /\ load_plans (db (snd run)) = load_plans (db w) ++ [row]
           /\ built_from row a)
  /\ (forall e,
         fst run = Raised e ->
         optimize_placement eng found v = Raised e
         \/ (exists p, optimize_placement eng found v = Returned p
                       /\ analyze_load eng p found v = Raised e)
         \/ int (sub user) = Raised e).
Proof.
  intros plan found v run. subst plan found v run.
  split; [|split; [|split; [|split]]].
  - rewrite !generate_plan_unfold. unfold fetched_cargo, fetched_vehicle.
    cbn [LoadPlanCreate.cargo_items LoadPlanCreate.vehicle_id].
    rewrite cargo_matching_known. reflexivity.
  - intros r. apply cargo_matching_In.
  - rewrite generate_plan_unfold. cbn zeta.
    destruct (optimize_placement eng _ _) as [p|e]; [|eexists; reflexivity].
    destruct (analyze_load eng p _ _) as [a|e]; [|eexists; reflexivity].
    destruct (int (sub user)); eexists; reflexivity.
  - intros p a uid Hopt Hana Hint.
    rewrite generate_plan_unfold. cbn zeta. rewrite Hopt, Hana, Hint.
    eexists. split; [reflexivity|]. split; [reflexivity|].
    apply plan_row_built_from.
  - intros e. rewrite generate_plan_unfold. cbn zeta.
    destruct (optimize_placement eng _ _) as [p|e1]; cbn.
    + destruct (analyze_load eng p _ _) as [a|e2] eqn:Hana; cbn.
      * destruct (int (sub user)) as [uid|e3]; cbn; [discriminate|].
        intros H. inversion H. right. right. reflexivity.
      * intros H. inversion H; subst. right. left.
        exists p. split; [reflexivity|assumption].
    + intros H. inversion H. left. reflexivity.
Qed.


(** C10: a request changes the database in one way only.  The tables
    [users], [vehicles] and [cargo] are as before, always.  Whenever
    both engine calls return and [int] reads the subject, the request
    completes, whether the analysis is safe or not, and has appended
    exactly one row to [load_plans]: the row it returns, under the
    number read off the token's subject and the requested vehicle id,
    built from the analysis; an unsafe analysis gives a stored row with
    status "draft".  A request that completes has stored exactly that
    one row; a request that ends in an exception has left [load_plans]
    as it was. *)
Theorem generate_plan_writes plan user (w : world P) :
  let items := fetched_cargo plan w in
  let v := fetched_vehicle plan w in
  let run := generate_plan eng int plan user w in
  users (db (snd run)) = users (db w)
  /\ vehicles (db (snd run)) = vehicles (db w)
  /\ cargo (db (snd run)) = cargo (db w)
  /\ (forall p a uid,
         optimize_placement eng items v = Returned p ->
         analyze_load eng p items v = Returned a ->
         int (sub user) = Returned uid ->
         exists row,
           fst run = Returned row
           /\ load_plans (db (snd run)) = load_plans (db w) ++ [row]
           /\ LoadPlan.user_id row = uid
           /\ LoadPlan.vehicle_id row = LoadPlanCreate.vehicle_id plan
           /\ built_from row a
           /\ (is_safe a = false -> LoadPlan.status row = "draft"))
  /\ match fst run with
     | Returned row =>
         load_plans (db (snd run)) = load_plans (db w) ++ [row]
         /\ int (sub user) = Returned (LoadPlan.user_id row)
         /\ exists p a,
              optimize_placement eng items v = Returned p
              /\ analyze_load eng p items v = Returned a
              /\ LoadPlan.status row
                 = (if is_safe a then "approved" else "draft")
     | Raised _ => load_plans (db (snd run)) = load_plans (db w)
     end.
Proof.
  intros items v run. subst items v run.
  rewrite generate_plan_unfold. cbn zeta.
  destruct (optimize_placement eng _ _) as [p|e] eqn:Hopt;
    [|cbn; repeat split; try reflexivity; discriminate].
  destruct (analyze_load eng p _ _) as [a|e] eqn:Hana.
  - destruct (int (sub user)) as [uid|e] eqn:Hint.
    + cbn. repeat (split; [reflexivity|]). split.
      * intros p' a' uid' Hp Ha Hu.
        inversion Hp; subst p'. rewrite Hana in Ha.
        inversion Ha; subst a'. inversion Hu; subst uid'.
        eexists. split; [reflexivity|]. split; [reflexivity|].
        split; [reflexivity|]. split; [reflexivity|].
        split; [apply plan_row_built_from|].
        intros Hunsafe. cbn. unfold status_of. rewrite Hunsafe. reflexivity.
      * split; [reflexivity|]. split; [reflexivity|].
        exists p, a. repeat split; reflexivity || assumption.
    + cbn. repeat (split; [reflexivity|]). split; [|reflexivity].
      intros p' a' uid' _ _ Hu. discriminate.
  - cbn. repeat (split; [reflexivity|]). split; [|reflexivity].
    intros p' a' uid' Hp Ha. inversion Hp; subst p'.
    rewrite Hana in Ha. discriminate.
Qed.

End HandlerProperties.

(** ** Optimizer errors in the request layer *)

Section OptimizerErrors.

Import Core.

Variable eng : PhysicsEngine (Result (list Placement) OptimizerError).
Variable int : string -> outcome Z.

(** C2, as the code has it: the handler does not look at what
    [optimize_placement] gives back.  An error raised as an exception ends
    the request: it reaches the caller, the analyzer is not called and the
    database is untouched.  An error returned as a value is passed on
    unchanged as the first argument of [analyze_load]; the request then
    goes on as for any other value: it stores a plan made from whatever
    analysis comes back, and fails only if the analyzer (or [int]) does. *)
Theorem generate_plan_optimizer_error plan user
  (w : world (Result (list Placement) OptimizerError)) :
  let items := fetched_cargo plan w in
  let v := fetched_vehicle plan w in
  let run := generate_plan eng int plan user w in
  (forall e,
      optimize_placement eng items v = Raised e ->
      fst run = Raised e
      /\ calls (snd run) = calls w ++ [CallOptimize items v]
      /\ db (snd run) = db w)
  /\ (forall err,
         optimize_placement eng items v = Returned (Err err) ->
         calls (snd run) =
         calls w ++ [CallOptimize items v; CallAnalyze (Err err) items v]
         /\ (forall a uid,
                analyze_load eng (Err err) items v = Returned a ->
                int (sub user) = Returned uid ->
                fst run = Returned (plan_row uid plan a)
                /\ load_plans (db (snd run))
                   = load_plans (db w) ++ [plan_row uid plan a])
         /\ (forall e,
                analyze_load eng (Err err) items v = Raised e ->
                fst run = Raised e /\ db (snd run) = db w)).
Proof.
  intros items v run. subst items v run. split.
  - intros e Hopt. rewrite (generate_plan_optimizer_raises _ _ _ _ _ _ Hopt).
    repeat split; reflexivity.
  - intros err Hopt. split; [|split].
    + rewrite generate_plan_unfold. cbn zeta. rewrite Hopt.
      destruct (analyze_load eng (Err err) _ _); [|reflexivity].
      destruct (int (sub user)); reflexivity.
    + intros a uid Hana Hint. rewrite generate_plan_unfold. cbn zeta.
      rewrite Hopt, Hana, Hint. split; reflexivity.
    + intros e Hana. rewrite generate_plan_unfold. cbn zeta.
      rewrite Hopt, Hana. split; reflexivity.
Qed.

End OptimizerErrors.

(** C2, as stated, fails: the two heavy crates make the optimizer return
    [CapacityExceeded 1200 1000], and the handler calls [analyze_load]
    with that very value. *)
Lemma overweight_error_reaches_analyzer :
  ~ error_stops_request (Demo.reference_engine Core.default_config)
      Demo.decimal_int Demo.heavy_plan Demo.ann Demo.start.
Proof.
  intros H.
  destruct (H Demo.overweight eq_refl) as [Hfed _].
  apply (Hfed (fetched_cargo Demo.heavy_plan Demo.start)
           (fetched_vehicle Demo.heavy_plan Demo.start)).
  vm_compute. right. left. reflexivity.
Qed.

Lemma generate_plan_optimizer_error_witness :
  optimize_placement (Demo.lenient_engine Core.default_config)
    (fetched_cargo Demo.heavy_plan Demo.start)
    (fetched_vehicle Demo.heavy_plan Demo.start)
  = Returned (Core.Err Demo.overweight)
  /\ fst (generate_plan (Demo.lenient_engine Core.default_config)
            Demo.decimal_int Demo.heavy_plan Demo.ann Demo.start)
     = Returned (plan_row 7 Demo.heavy_plan Demo.flat_analysis)
  /\ load_plans
       (db (snd (generate_plan (Demo.lenient_engine Core.default_config)
                   Demo.decimal_int Demo.heavy_plan Demo.ann Demo.start)))
     = load_plans (db Demo.start)
       ++ [plan_row 7 Demo.heavy_plan Demo.flat_analysis].
Proof.
  split; [reflexivity|].
  destruct (generate_plan_optimizer_error
              (Demo.lenient_engine Core.default_config) Demo.decimal_int
              Demo.heavy_plan Demo.ann Demo.start) as [_ Herr].
  destruct (Herr Demo.overweight eq_refl) as (_ & Hstore & _).
  exact (Hstore Demo.flat_analysis 7 eq_refl eq_refl).
Defined.

Lemma generate_plan_status_derived_witness :
  (optimize_placement (Demo.reference_engine Core.default_config)
     (fetched_cargo Demo.light_plan Demo.start)
     (fetched_vehicle Demo.light_plan Demo.start)
   = Returned (Core.Ok Demo.light_placements)
   /\ analyze_load (Demo.reference_engine Core.default_config)
        (Core.Ok Demo.light_placements)
        (fetched_cargo Demo.light_plan Demo.start)
        (fetched_vehicle Demo.light_plan Demo.start)
      = Returned Demo.light_analysis
   /\ Demo.decimal_int (sub Demo.ann) = Returned 7)
  /\ exists row w',
       generate_plan (Demo.reference_engine Core.default_config)
         Demo.decimal_int Demo.light_plan Demo.ann Demo.start
       = (Returned row, w')
       /\ load_plans (db w') = load_plans (db Demo.start) ++ [row]
       /\ LoadPlan.status row
          = (if is_safe Demo.light_analysis then "approved" else "draft")
       /\ (LoadPlan.status row = "approved" \/ LoadPlan.status row = "draft").
Proof.
  split.
  - repeat split; vm_compute; reflexivity.
  - apply (generate_plan_status_derived
             (Demo.reference_engine Core.default_config) Demo.decimal_int
             Demo.light_plan Demo.ann Demo.start
             (Core.Ok Demo.light_placements) Demo.light_analysis 7);
      vm_compute; reflexivity.
Defined.

Lemma generate_plan_row_fields_witness :
  generate_plan Demo.blind_engine Demo.decimal_int Demo.light_plan Demo.ann
    Demo.start
  = (Returned (plan_row 7 Demo.light_plan Demo.flat_analysis),
     snd (generate_plan Demo.blind_engine Demo.decimal_int Demo.light_plan
            Demo.ann Demo.start))
  /\ LoadPlan.status (plan_row 7 Demo.light_plan Demo.flat_analysis)
     = "approved"
  /\ exists p a,
       optimize_placement Demo.blind_engine
         (fetched_cargo Demo.light_plan Demo.start)
         (fetched_vehicle Demo.light_plan Demo.start) = Returned p
       /\ analyze_load Demo.blind_engine p
            (fetched_cargo Demo.light_plan Demo.start)
            (fetched_vehicle Demo.light_plan Demo.start) = Returned a
       /\ LoadPlan.stability_score
            (plan_row 7 Demo.light_plan Demo.flat_analysis)
          = stability_score a.
Proof.
  split; [reflexivity|]. split; [reflexivity|].
  destruct (generate_plan_row_fields Demo.blind_engine Demo.decimal_int
              Demo.light_plan Demo.ann Demo.start _ _ eq_refl)
    as (p & a & Hopt & Hana & _ & Hscore & _).
  exists p, a. repeat split; assumption.
Defined.


(** C4, as stated, fails: for a vehicle id that names no stored vehicle
    this engine's optimizer raises, and the request ends having called
    [optimize_placement] once and [analyze_load] not at all. *)
Lemma optimizer_exception_skips_analyzer :
  ~ both_engine_calls_made (Demo.reference_engine Core.default_config)
      Demo.decimal_int Demo.ghost_plan Demo.ann Demo.start.
Proof.
  intros [p Hlog]. vm_compute in Hlog. discriminate Hlog.
Qed.

Lemma generate_plan_calls_witness :
  optimize_placement (Demo.reference_engine Core.default_config)
    (fetched_cargo Demo.light_plan Demo.start)
    (fetched_vehicle Demo.light_plan Demo.start)
  = Returned (Core.Ok Demo.light_placements)
  /\ calls (snd (generate_plan (Demo.reference_engine Core.default_config)
                   Demo.decimal_int Demo.light_plan Demo.ann Demo.start))
     = calls Demo.start
       ++ [CallOptimize (fetched_cargo Demo.light_plan Demo.start)
             (fetched_vehicle Demo.light_plan Demo.start);
           CallAnalyze (Core.Ok Demo.light_placements)
             (fetched_cargo Demo.light_plan Demo.start)
             (fetched_vehicle Demo.light_plan Demo.start)]
  /\ exists row,
       fst (generate_plan (Demo.reference_engine Core.default_config)
              Demo.decimal_int Demo.light_plan Demo.ann Demo.start)
       = Returned row
       /\ built_from row Demo.light_analysis.
Proof.
  assert (Hopt : optimize_placement
                   (Demo.reference_engine Core.default_config)
                   (fetched_cargo Demo.light_plan Demo.start)
                   (fetched_vehicle Demo.light_plan Demo.start)
                 = Returned (Core.Ok Demo.light_placements))
    by (vm_compute; reflexivity).
  split; [exact Hopt|].
  destruct (generate_plan_calls (Demo.reference_engine Core.default_config)
              Demo.decimal_int Demo.light_plan Demo.ann Demo.start)
    as (_ & _ & Hret).
  destruct (Hret _ Hopt) as (Hlog & _ & Hrow).
  split; [exact Hlog|].
  apply (Hrow Demo.light_analysis 7); vm_compute; reflexivity.
Defined.

Lemma generate_plan_drops_unknown_cargo_witness :
  (forall r, In r (cargo (db Demo.start)) -> Cargo.cargo_id r <> 9)
  /\ In 9 (LoadPlanCreate.cargo_items Demo.light_plan)
  /\ exists row,
       fst (generate_plan (Demo.reference_engine Core.default_config)
              Demo.decimal_int Demo.light_plan Demo.ann Demo.start)
       = Returned row
       /\ load_plans
            (db (snd (generate_plan
                        (Demo.reference_engine Core.default_config)
                        Demo.decimal_int Demo.light_plan Demo.ann
                        Demo.start)))
          = load_plans (db Demo.start) ++ [row]
       /\ built_from row Demo.light_analysis.
Proof.
  split.
  { intros r [<-|[<-|[<-|[<-|[]]]]]; cbn; discriminate. }
  split; [cbn; tauto|].
  destruct (generate_plan_drops_unknown_cargo
              (Demo.reference_engine Core.default_config) Demo.decimal_int
              1 [3; 4; 9] Demo.ann Demo.start)
    as (_ & _ & _ & Hstored & _).
  apply (Hstored (Core.Ok Demo.light_placements) Demo.light_analysis 7);
    vm_compute; reflexivity.
Defined.

Lemma generate_plan_writes_witness :
  is_safe Demo.light_analysis = false
  /\ exists row,
       fst (generate_plan (Demo.reference_engine Core.default_config)
              Demo.decimal_int Demo.light_plan Demo.ann Demo.start)
       = Returned row
       /\ load_plans
            (db (snd (generate_plan
                        (Demo.reference_engine Core.default_config)
                        Demo.decimal_int Demo.light_plan Demo.ann
                        Demo.start)))
          = load_plans (db Demo.start) ++ [row]
       /\ LoadPlan.user_id row = 7
       /\ LoadPlan.status row = "draft".
Proof.
  split; [reflexivity|].
  destruct (generate_plan_writes
              (Demo.reference_engine Core.default_config) Demo.decimal_int
              Demo.light_plan Demo.ann Demo.start)
    as (_ & _ & _ & Hstored & _).
  destruct (Hstored (Core.Ok Demo.light_placements) Demo.light_analysis 7)
    as (row & Hrun & Hplans & Huid & _ & _ & Hdraft);
    try (vm_compute; reflexivity).
  exists row. repeat split; try assumption. apply Hdraft. reflexivity.
Defined.

Lemma generate_plan_unknown_vehicle_witness :
  (forall r, In r (vehicles (db Demo.start)) ->
             Vehicle.vehicle_id r <> LoadPlanCreate.vehicle_id Demo.ghost_plan)
  /\ (exists rest,
         calls (snd (generate_plan Demo.blind_engine Demo.decimal_int
                       Demo.ghost_plan Demo.ann Demo.start))
         = calls Demo.start
           ++ CallOptimize (fetched_cargo Demo.ghost_plan Demo.start) None
              :: rest)
  /\ fst (generate_plan Demo.blind_engine Demo.decimal_int Demo.ghost_plan
            Demo.ann Demo.start)
     = Returned (plan_row 7 Demo.ghost_plan Demo.flat_analysis).
Proof.
  assert (Hnone : forall r, In r (vehicles (db Demo.start)) ->
            Vehicle.vehicle_id r <> LoadPlanCreate.vehicle_id Demo.ghost_plan).
  { intros r [<-|[]]. vm_compute. discriminate. }
  split; [exact Hnone|].
  destruct (generate_plan_unknown_vehicle Demo.blind_engine Demo.decimal_int
              Demo.ghost_plan Demo.ann Demo.start Hnone)
    as (Hcall & Hdone & _).
  split; [exact Hcall|].
  exact (proj1 (Hdone (Core.Ok []) Demo.flat_analysis 7
                  eq_refl eq_refl eq_refl)).
Defined.

(** * Properties of the placement core *)

Section PlacementProperties.

Import Core.
Local Open Scope Q_scope.

Lemma Qltb_lt (a b : Q) : Qltb a b = true <-> a < b.
Proof.
  unfold Qltb. rewrite negb_true_iff. split.
  - intros H. apply Qnot_le_lt. intros Hle.
    apply Qle_bool_iff in Hle. congruence.
  - intros H. destruct (Qle_bool b a) eqn:E; [|reflexivity].
    apply Qle_bool_iff in E. apply Qlt_not_le in H. contradiction.
Qed.

Lemma axis_overlaps_meet (a la b lb : Q) :
  axis_overlaps a la b lb = true <-> axis_meet a la b lb.
Proof.
  unfold axis_overlaps, axis_meet.
  rewrite andb_true_iff, !Qltb_lt. reflexivity.
Qed.

Lemma overlaps_intersect (a b : Box) :
  overlaps a b = true <-> interiors_intersect a b.
Proof.
  unfold overlaps, interiors_intersect.
  rewrite !andb_true_iff, !axis_overlaps_meet. tauto.
Qed.

Lemma interiors_intersect_sym (a b : Box) :
  interiors_intersect a b -> interiors_intersect b a.
Proof. unfold interiors_intersect, axis_meet. tauto. Qed.

Lemma clear_of_placed (b : Box) (placed : list Box) :
  forallb (fun c => negb (overlaps b c)) placed = true ->
  Forall (fun c => ~ interiors_intersect b c) placed.
Proof.
  rewrite forallb_forall, Forall_forall. intros H c Hc Hmeet.
  apply overlaps_intersect in Hmeet.
  specialize (H c Hc). rewrite Hmeet in H. discriminate.
Qed.

(** What the slab scan accepts sits at the accepted slab's corner, has
    the shape asked for, clears every placed box and lies in the bay. *)
Lemma scan_slabs_hit bay placed shape slabs :
  forall seen b s others,
    scan_slabs bay placed shape seen slabs = Some (b, s, others) ->
    b = move_to shape (min_x s) (min_y s) (min_z s)
    /\ Forall (fun c => ~ interiors_intersect b c) placed
    /\ contains bay b = true.
Proof.
  induction slabs as [|s0 rest IH]; intros seen b s others; cbn.
  - discriminate.
  - destruct (inside s0 _ && forallb _ placed && contains bay _) eqn:Hacc.
    + intros H. inversion H; subst.
      apply andb_true_iff in Hacc. destruct Hacc as [Hacc Hbay].
      apply andb_true_iff in Hacc. destruct Hacc as [_ Hclear].
      split; [reflexivity|]. split; [|exact Hbay].
      apply clear_of_placed. exact Hclear.
    + apply IH.
Qed.

Lemma find_position_hit bay placed item slabs rot b s others :
  find_position bay placed item slabs = Some (rot, (b, s, others)) ->
  b = placement_box item
        (mkPlacement (Cargo.cargo_id item) rot (min_x b) (min_y b) (min_z b))
  /\ Forall (fun c => ~ interiors_intersect b c) placed
  /\ contains bay b = true.
Proof.
  unfold find_position.
  destruct (scan_slabs bay placed (box_for item false) [] slabs)
    as [[[b0 s0] o0]|] eqn:Hplain.
  - intros H. inversion H; subst.
    destruct (scan_slabs_hit _ _ _ _ _ _ _ _ Hplain) as (Hb & Hclear & Hbay).
    split; [|split; assumption].
    rewrite Hb. reflexivity.
  - destruct (scan_slabs bay placed (box_for item true) [] slabs)
      as [[[b0 s0] o0]|] eqn:Hturned; [|discriminate].
    intros H. inversion H; subst.
    destruct (scan_slabs_hit _ _ _ _ _ _ _ _ Hturned) as (Hb & Hclear & Hbay).
    split; [|split; assumption].
    rewrite Hb. reflexivity.
Qed.

(** The invariant of the greedy pass: the placements it adds follow the
    items still to do, one each and in order; their boxes are pairwise
    apart, apart from every box placed before, and inside the bay. *)
Lemma pack_sound bay todo :
  forall slabs placed done ps,
    pack bay todo slabs placed done = Ok ps ->
    exists new,
      ps = done ++ new
      /\ map cargo_ref new = map Cargo.cargo_id todo
      /\ ForallOrdPairs (fun a b => ~ interiors_intersect a b)
           (boxes_of todo new)
      /\ Forall (fun b => Forall (fun c => ~ interiors_intersect b c) placed)
           (boxes_of todo new)
      /\ Forall (fun b => contains bay b = true) (boxes_of todo new).
Proof.
  induction todo as [|item rest IH]; intros slabs placed done ps; cbn.
  - intros H. inversion H; subst. exists []. rewrite app_nil_r.
    repeat split; constructor.
  - destruct (find_position bay placed item slabs)
      as [[rot [[b s] others]]|] eqn:Hfind; [|discriminate].
    intros Hpack.
    destruct (find_position_hit _ _ _ _ _ _ _ _ Hfind)
      as (Hbox & Hclear & Hbay).
    destruct (IH _ _ _ _ Hpack) as (new & Hps & Hids & Hpair & Hold & Hin).
    exists (mkPlacement (Cargo.cargo_id item) rot (min_x b) (min_y b)
              (min_z b) :: new).
    unfold boxes_of in *. cbn. rewrite <- Hbox.
    split; [rewrite Hps, <- app_assoc; reflexivity|].
    split; [rewrite Hids; reflexivity|].
    split; [|split].
    + constructor; [|exact Hpair].
      rewrite Forall_forall in *. intros c Hc Hmeet.
      specialize (Hold c Hc). rewrite Forall_forall in Hold.
      apply (Hold b (or_introl eq_refl)).
      apply interiors_intersect_sym. exact Hmeet.
    + constructor; [exact Hclear|].
      rewrite Forall_forall in *. intros c Hc.
      specialize (Hold c Hc). inversion Hold; assumption.
    + constructor; assumption.
Qed.

Lemma optimize_packs cfg items vehicle ps :
  optimize cfg items vehicle = Ok ps ->
  precheck cfg items vehicle = None
  /\ pack vehicle (order_items items) [bay_box vehicle] [] [] = Ok ps.
Proof.
  unfold optimize, optimize_with, greedy.
  destruct (precheck cfg items vehicle); [discriminate|].
  intros H. split; [reflexivity|exact H].
Qed.

Lemma ordered_pairs_nth {A} (R : A -> A -> Prop) (l : list A) :
  ForallOrdPairs R l ->
  forall i j a b,
    (i < j)%nat -> nth_error l i = Some a -> nth_error l j = Some b -> R a b.
Proof.
  induction 1 as [|c l Hc Hl IH]; intros i j a b Hij Hi Hj.
  - destruct i; discriminate.
  - destruct j as [|j]; [lia|]. cbn in Hj.
    destruct i as [|i]; cbn in Hi.
    + inversion Hi; subst. rewrite Forall_forall in Hc.
      apply Hc. eapply nth_error_In. exact Hj.
    + apply (IH i j); [lia|assumption|assumption].
Qed.

(** C5: if the items' weights sum to more than [max_load], the guards
    that run ahead of the packer already answer [CapacityExceeded] with
    that sum and that limit, so [optimize] returns this error, and it
    does so whatever packer is plugged in behind the guards: no
    placement is tried first. *)
Theorem optimize_capacity_exceeded cfg items vehicle :
  Vehicle.max_load vehicle < weight_sum items ->
  optimize cfg items vehicle
  = Err (CapacityExceeded (weight_sum items) (Vehicle.max_load vehicle))
  /\ precheck cfg items vehicle
     = Some (CapacityExceeded (weight_sum items) (Vehicle.max_load vehicle))
  /\ forall packer,
       optimize_with packer cfg items vehicle
       = Err (CapacityExceeded (weight_sum items)
                (Vehicle.max_load vehicle)).
Proof.
  intros Hover. apply Qltb_lt in Hover.
  assert (Hpre : precheck cfg items vehicle
                 = Some (CapacityExceeded (weight_sum items)
                           (Vehicle.max_load vehicle))).
  { unfold precheck. rewrite Hover. reflexivity. }
  split; [|split].
  - unfold optimize, optimize_with. rewrite Hpre. reflexivity.
  - exact Hpre.
  - intros packer. unfold optimize_with. rewrite Hpre. reflexivity.
Qed.

(** C6: in a successful result of [optimize] there is one placement per
    item, in packing order, and the boxes of any two placements at
    different positions of the list do not have intersecting interiors:
    on at least one axis their open intervals are disjoint. *)
Theorem optimize_no_overlap cfg items vehicle ps :
  optimize cfg items vehicle = Ok ps ->
  map cargo_ref ps = map Cargo.cargo_id (order_items items)
  /\ List.length (boxes_of (order_items items) ps) = List.length ps
  /\ forall i j bi bj,
       i <> j ->
       nth_error (boxes_of (order_items items) ps) i = Some bi ->
       nth_error (boxes_of (order_items items) ps) j = Some bj ->
       ~ interiors_intersect bi bj.
Proof.
  intros Hopt. apply optimize_packs in Hopt. destruct Hopt as [_ Hpack].
  destruct (pack_sound _ _ _ _ _ _ Hpack) as (new & Hps & Hids & Hpair & _).
  cbn in Hps. subst new.
  split; [exact Hids|]. split.
  - unfold boxes_of. rewrite length_map, length_combine.
    apply (f_equal (@List.length Z)) in Hids. rewrite !length_map in Hids.
    rewrite Hids. apply Nat.min_id.
  - intros i j bi bj Hij Hi Hj.
    destruct (Nat.lt_total i j) as [Hlt|[Heq|Hgt]].
    + exact (ordered_pairs_nth _ _ Hpair i j bi bj Hlt Hi Hj).
    + contradiction.
    + intros Hmeet. apply interiors_intersect_sym in Hmeet. revert Hmeet.
      exact (ordered_pairs_nth _ _ Hpair j i bj bi Hgt Hj Hi).
Qed.

Lemma insert_by_In {A} (before : A -> A -> bool) (a c : A) (l : list A) :
  In c (insert_by before a l) <-> c = a \/ In c l.
Proof.
  induction l as [|b l IH]; cbn.
  - intuition.
  - destruct (before a b); cbn; [intuition|]. rewrite IH. intuition.
Qed.

Lemma sort_by_In {A} (before : A -> A -> bool) (c : A) (l : list A) :
  In c (sort_by before l) <-> In c l.
Proof.
  induction l as [|a l IH]; cbn; [reflexivity|].
  rewrite insert_by_In, IH. intuition.
Qed.

Lemma lookup_item_found items it :
  In it items -> exists it', lookup_item items (Cargo.cargo_id it) = Some it'.
Proof.
  intros Hin. unfold lookup_item.
  destruct (find _ items) as [it'|] eqn:Hfind; [exists it'; reflexivity|].
  pose proof (find_none _ _ Hfind it Hin) as Hno. cbn in Hno.
  rewrite Z.eqb_refl in Hno. discriminate.
Qed.

Lemma moments_defined ps items :
  Forall (fun p => exists it, In it items
                              /\ Cargo.cargo_id it = cargo_ref p) ps ->
  exists r, moments ps items = Some r.
Proof.
  induction 1 as [|p ps (it & Hin & Hid) _ (r & Hr)]; cbn.
  - eexists. reflexivity.
  - destruct (lookup_item_found _ _ Hin) as (it' & Hit').
    rewrite <- Hid, Hit', Hr. destruct r as [w m]. eexists. reflexivity.
Qed.

(** Every placement of a successful result names one of the input items,
    so the analyzer's cross-reference never breaks on optimizer output. *)
Lemma optimize_refs_known cfg items vehicle ps :
  optimize cfg items vehicle = Ok ps ->
  Forall (fun p => exists it, In it items
                              /\ Cargo.cargo_id it = cargo_ref p) ps.
Proof.
  intros Hopt. apply optimize_packs in Hopt. destruct Hopt as [_ Hpack].
  destruct (pack_sound _ _ _ _ _ _ Hpack) as (new & Hps & Hids & _).
  cbn in Hps. subst new.
  apply Forall_forall. intros p Hp.
  assert (Hin : In (cargo_ref p) (map Cargo.cargo_id (order_items items))).
  { rewrite <- Hids. apply in_map. exact Hp. }
  apply in_map_iff in Hin. destruct Hin as (it & Hid & Hit).
  exists it. split; [|exact Hid].
  apply (sort_by_In packs_before). exact Hit.
Qed.


(** One invocation of the core returns an optimizer error, or
    placements together with an analysis of them. *)
Lemma plan_load_returns cfg items vehicle :
  (exists e, plan_load cfg items vehicle = Err e)
  \/ (exists ps a, plan_load cfg items vehicle = Ok (ps, Some a)).
Proof.
  unfold plan_load.
  destruct (optimize cfg items vehicle) as [ps|e] eqn:Hopt;
    [right|left; exists e; reflexivity].
  destruct (moments_defined _ _ (optimize_refs_known _ _ _ _ Hopt))
    as ([w m] & Hm).
  unfold analyze. rewrite Hm. eexists. eexists. reflexivity.
Qed.

End PlacementProperties.

Lemma optimize_capacity_exceeded_witness :
  (Vehicle.max_load Demo.truck < Core.weight_sum Demo.heavy_items)%Q
  /\ Core.optimize Core.default_config Demo.heavy_items Demo.truck
     = Core.Err (Core.CapacityExceeded 1200%Q 1000%Q).
Proof.
  assert (Hover : (Vehicle.max_load Demo.truck
                   < Core.weight_sum Demo.heavy_items)%Q)
    by (vm_compute; reflexivity).
  split; [exact Hover|].
  exact (proj1 (optimize_capacity_exceeded Core.default_config
                  Demo.heavy_items Demo.truck Hover)).
Defined.

Lemma optimize_no_overlap_witness :
  Core.optimize Core.default_config Demo.mixed_items Demo.truck
  = Core.Ok Demo.mixed_placements
  /\ List.length Demo.mixed_placements = 4%nat
  /\ forall i j bi bj,
       i <> j ->
       nth_error (Core.boxes_of (Core.order_items Demo.mixed_items)
                    Demo.mixed_placements) i = Some bi ->
       nth_error (Core.boxes_of (Core.order_items Demo.mixed_items)
                    Demo.mixed_placements) j = Some bj ->
       ~ Core.interiors_intersect bi bj.
Proof.
  assert (Hopt : Core.optimize Core.default_config Demo.mixed_items
                   Demo.truck = Core.Ok Demo.mixed_placements)
    by (vm_compute; reflexivity).
  split; [exact Hopt|]. split; [reflexivity|].
  exact (proj2 (proj2 (optimize_no_overlap Core.default_config
                         Demo.mixed_items Demo.truck Demo.mixed_placements
                         Hopt))).
Defined.


(** * More on [generate_plan] *)

Section MorePlanProperties.

Context {P : Type}.
Variable eng : PhysicsEngine P.
Variable int : string -> outcome Z.

Lemma cargo_matching_members ids ids' tbl :
  (forall i, In i ids <-> In i ids') ->
  cargo_matching ids tbl = cargo_matching ids' tbl.
Proof.
  intros Hsame. unfold cargo_matching. apply filter_ext. intros r.
  apply eq_true_iff_eq. rewrite !existsb_exists.
  split; intros (i & Hi & Heq); exists i; (split; [apply Hsame|]); assumption.
Qed.

(** X1: the list of cargo ids of a request counts as a set: two requests
    for the same vehicle whose id lists have the same members, in any
    order and with any repetitions, run identically (same outcome, same
    database, same engine calls). *)
Theorem generate_plan_ids_as_set vid ids ids' user (w : world P) :
  (forall i, In i ids <-> In i ids') ->
  generate_plan eng int (LoadPlanCreate.mk vid ids) user w
  = generate_plan eng int (LoadPlanCreate.mk vid ids') user w.
Proof.
  intros Hsame. rewrite !generate_plan_unfold.
  unfold fetched_cargo, fetched_vehicle.
  cbn [LoadPlanCreate.cargo_items LoadPlanCreate.vehicle_id].
  rewrite (cargo_matching_members _ _ _ Hsame). reflexivity.
Qed.





Lemma unique_key_row {A} (key : A -> Z) (l : list A) (a b : A) :
  NoDup (map key l) -> In a l -> In b l -> key a = key b -> a = b.
Proof.
  induction l as [|c l IH]; cbn; intros Hnd Ha Hb Hk; [contradiction|].
  inversion Hnd as [|? ? Hnot Hrest]; subst.
  destruct Ha as [->|Ha], Hb as [->|Hb].
  - reflexivity.
  - exfalso. apply Hnot. rewrite Hk. apply in_map. exact Hb.
  - exfalso. apply Hnot. rewrite <- Hk. apply in_map. exact Ha.
  - apply IH; assumption.
Qed.

(** X4: when vehicle ids are keys of the [vehicles] table, a request
    naming a stored vehicle has the engine called with that very row. *)
Theorem generate_plan_known_vehicle plan user (w : world P) v :
  NoDup (map Vehicle.vehicle_id (vehicles (db w))) ->
  In v (vehicles (db w)) ->
  Vehicle.vehicle_id v = LoadPlanCreate.vehicle_id plan ->
  exists rest,
    calls (snd (generate_plan eng int plan user w))
    = calls w ++ CallOptimize (fetched_cargo plan w) (Some v) :: rest.
Proof.
  intros Hkeys Hin Hid.
  assert (Hv : fetched_vehicle plan w = Some v).
  { unfold fetched_vehicle.
    destruct (find _ (vehicles (db w))) as [v'|] eqn:Hfind.
    - apply find_some in Hfind. destruct Hfind as [Hin' Heq].
      apply Z.eqb_eq in Heq. f_equal.
      apply (unique_key_row Vehicle.vehicle_id (vehicles (db w)));
        congruence.
    - pose proof (find_none _ _ Hfind v Hin) as Hno. cbn in Hno.
      apply Z.eqb_neq in Hno. contradiction. }
  rewrite generate_plan_unfold. cbn zeta. rewrite Hv.
  destruct (optimize_placement eng _ _) as [p|e]; [|eexists; reflexivity].
  destruct (analyze_load eng p _ _) as [a|e]; [|eexists; reflexivity].
  destruct (int (sub user)); eexists; reflexivity.
Qed.

Lemma NoDup_map_filter {A} (key : A -> Z) (f : A -> bool) (l : list A) :
  NoDup (map key l) -> NoDup (map key (filter f l)).
Proof.
  induction l as [|a l IH]; cbn; intros Hnd; [constructor|].
  inversion Hnd as [|? ? Hnot Hrest]; subst.
  destruct (f a); cbn; [|apply IH; exact Hrest].
  constructor; [|apply IH; exact Hrest].
  intros Hin. apply Hnot. apply in_map_iff in Hin.
  destruct Hin as (b & Hk & Hb). apply filter_In in Hb.
  rewrite <- Hk. apply in_map. apply Hb.
Qed.

(** X5: when cargo ids are keys of the [cargo] table, the rows the
    engine is called on are stored rows with pairwise different ids, and
    there are no more of them than ids in the request. *)
Theorem generate_plan_items_distinct plan user (w : world P) :
  NoDup (map Cargo.cargo_id (cargo (db w))) ->
  exists items v rest,
    calls (snd (generate_plan eng int plan user w))
    = calls w ++ CallOptimize items v :: rest
    /\ NoDup (map Cargo.cargo_id items)
    /\ (List.length items <= List.length (LoadPlanCreate.cargo_items plan))%nat
    /\ (forall r, In r items -> In r (cargo (db w))).
Proof.
  intros Hkeys.
  exists (fetched_cargo plan w), (fetched_vehicle plan w).
  assert (Hnd : NoDup (map Cargo.cargo_id (fetched_cargo plan w))).
  { unfold fetched_cargo, cargo_matching. apply NoDup_map_filter.
    exact Hkeys. }
  assert (Hlog : exists rest,
             calls (snd (generate_plan eng int plan user w))
             = calls w ++ CallOptimize (fetched_cargo plan w)
                            (fetched_vehicle plan w) :: rest).
  { rewrite generate_plan_unfold. cbn zeta.
    destruct (optimize_placement eng _ _) as [p|e]; [|eexists; reflexivity].
    destruct (analyze_load eng p _ _) as [a|e]; [|eexists; reflexivity].
    destruct (int (sub user)); eexists; reflexivity. }
  destruct Hlog as [rest Hlog]. exists rest.
  split; [exact Hlog|]. split; [exact Hnd|]. split.
  - rewrite <- (length_map Cargo.cargo_id).
    apply NoDup_incl_length; [exact Hnd|].
    intros i Hi. apply in_map_iff in Hi. destruct Hi as (r & <- & Hr).
    apply cargo_matching_In in Hr. apply Hr.
  - intros r Hr. apply cargo_matching_In in Hr. apply Hr.
Qed.

(** X6: a token whose subject [int] rejects: the request never
    completes and the database is left as it was; when both engine
    calls return, they have both been made by the time [int]'s
    exception ends the request. *)
Theorem generate_plan_bad_subject plan user (w : world P) e :
  int (sub user) = Raised e ->
  let run := generate_plan eng int plan user w in
  db (snd run) = db w
  /\ (forall row, fst run <> Returned row)
  /\ (forall p a,
         optimize_placement eng (fetched_cargo plan w)
           (fetched_vehicle plan w) = Returned p ->
         analyze_load eng p (fetched_cargo plan w) (fetched_vehicle plan w)
         = Returned a ->
         fst run = Raised e
         /\ calls (snd run)
            = calls w
              ++ [CallOptimize (fetched_cargo plan w)
                    (fetched_vehicle plan w);
                  CallAnalyze p (fetched_cargo plan w)
                    (fetched_vehicle plan w)]).
Proof.
  intros Hint run. subst run. rewrite generate_plan_unfold. cbn zeta.
  rewrite Hint. split; [|split].
  - destruct (optimize_placement eng _ _) as [p|e1]; [|reflexivity].
    destruct (analyze_load eng p _ _); reflexivity.
  - intros row.
    destruct (optimize_placement eng _ _) as [p|e1]; [|discriminate].
    destruct (analyze_load eng p _ _); discriminate.
  - intros p a Hopt Hana. rewrite Hopt, Hana. split; reflexivity.
Qed.

(** X7: a request none of whose cargo ids is stored (an empty id list
    included) is not refused: the engine is called on the empty list of
    rows, and if it and [int] return, a plan is stored as usual. *)
Theorem generate_plan_no_cargo plan user (w : world P) :
  (forall r, In r (cargo (db w)) ->
             ~ In (Cargo.cargo_id r) (LoadPlanCreate.cargo_items plan)) ->
  let run := generate_plan eng int plan user w in
  let v := fetched_vehicle plan w in
  (exists rest, calls (snd run) = calls w ++ CallOptimize [] v :: rest)
  /\ (forall p a uid,
         optimize_placement eng [] v = Returned p ->
         analyze_load eng p [] v = Returned a ->
         int (sub user) = Returned uid ->
         fst run = Returned (plan_row uid plan a)
         /\ load_plans (db (snd run))
            = load_plans (db w) ++ [plan_row uid plan a]).
Proof.
  intros Hnone run v. subst run v.
  assert (Hc : fetched_cargo plan w = []).
  { destruct (fetched_cargo plan w) as [|r l] eqn:Hf; [reflexivity|].
    assert (Hr : In r (fetched_cargo plan w)) by (rewrite Hf; left; reflexivity).
    apply cargo_matching_In in Hr. destruct Hr as [Hr Hi].
    exfalso. exact (Hnone r Hr Hi). }
  rewrite generate_plan_unfold. cbn zeta. rewrite Hc. split.
  - destruct (optimize_placement eng _ _) as [p|e]; [|eexists; reflexivity].
    destruct (analyze_load eng p _ _) as [a|e]; [|eexists; reflexivity].
    destruct (int (sub user)); eexists; reflexivity.
  - intros p a uid Hopt Hana Hint. rewrite Hopt, Hana, Hint.
    split; reflexivity.
Qed.

End MorePlanProperties.

(** * The account handlers *)

Section AccountProperties.

Context {P : Type}.
Variable verify_password : string -> string -> outcome bool.
Variable get_password_hash : string -> outcome string.
Variable create_access_token : TokenData -> Z -> outcome string.
Variable ACCESS_TOKEN_EXPIRE_MINUTES : Z.
Variable str : Z -> string.
Variable int : string -> outcome Z.
Variable next_user_id : database -> Z.

Local Abbreviation login_ :=
  (login verify_password create_access_token ACCESS_TOKEN_EXPIRE_MINUTES str).
Local Abbreviation register_ := (register get_password_hash next_user_id).

Lemma stored_user_some e (w : world P) u :
  stored_user e w = Some u -> In u (users (db w)) /\ User.email u = e.
Proof.
  unfold stored_user. intros H. apply find_some in H.
  destruct H as [Hin Heq]. apply String.eqb_eq in Heq. split; assumption.
Qed.

Lemma stored_user_none e (w : world P) :
  stored_user e w = None <->
  (forall u, In u (users (db w)) -> User.email u <> e).
Proof.
  unfold stored_user. split.
  - intros H u Hu Heq. pose proof (find_none _ _ H u Hu) as Hno.
    cbn in Hno. apply String.eqb_neq in Hno. contradiction.
  - intros H. apply find_absent. intros u Hu.
    apply String.eqb_neq. apply H. exact Hu.
Qed.

Lemma find_after {A} (f : A -> bool) (l : list A) (a : A) :
  find f l = None -> f a = true -> find f (l ++ [a]) = Some a.
Proof.
  induction l as [|b l IH]; cbn; intros Hnone Ha.
  - rewrite Ha. reflexivity.
  - destruct (f b); [discriminate|]. apply IH; assumption.
Qed.

(** X8: a login is refused with status 401 and the one message "Invalid
    email or password", the world left as it was, both when no user has
    the e-mail and when the first user with it fails the password check:
    the answer does not tell the two apart. *)
Theorem login_rejects ul (w : world P) :
  (forall u, stored_user (UserLogin.email ul) w = Some u ->
             verify_password (UserLogin.password ul) (User.password_hash u)
             = Returned false) ->
  login_ ul w = (Raised (HTTPException 401 "Invalid email or password"), w).
Proof.
  intros Hbad. unfold login, bind, select_user_by_email, raise, lift.
  fold (stored_user (UserLogin.email ul) w).
  destruct (stored_user (UserLogin.email ul) w) as [u|] eqn:Hu;
    [|reflexivity].
  rewrite (Hbad u eq_refl). reflexivity.
Qed.

(** A login that answers returns a stored user and changes nothing. *)
Lemma login_returns_stored ul (w w' : world P) t :
  login_ ul w = (Returned t, w') ->
  w' = w /\ In (user t) (users (db w)).
Proof.
  unfold login, bind, select_user_by_email, raise, lift, ret.
  destruct (find _ (users (db w))) as [u|] eqn:Hu; [|discriminate].
  destruct (verify_password _ _) as [[|]|e]; cbn; try discriminate.
  destruct (create_access_token _ _) as [tok|e]; [|discriminate].
  intros H. inversion H; subst. cbn.
  split; [reflexivity|]. apply find_some in Hu. apply Hu.
Qed.

(** X9: a login that answers with a token leaves the world as it was;
    the user it returns is the first stored user with the submitted
    e-mail, the password check on that user's stored hash said yes, the
    token is the one made for subject [str user_id] with that user's
    e-mail and role, and the token type is "bearer". *)
Theorem login_sound ul (w w' : world P) t :
  login_ ul w = (Returned t, w') ->
  w' = w
  /\ stored_user (UserLogin.email ul) w = Some (user t)
  /\ In (user t) (users (db w))
  /\ User.email (user t) = UserLogin.email ul
  /\ verify_password (UserLogin.password ul) (User.password_hash (user t))
     = Returned true
  /\ create_access_token
       (mkToken (str (User.user_id (user t))) (User.email (user t))
          (User.role (user t)))
       ACCESS_TOKEN_EXPIRE_MINUTES
     = Returned (access_token t)
  /\ token_type t = "bearer".
Proof.
  unfold login, bind, select_user_by_email, raise, lift, ret, token_data.
  fold (stored_user (UserLogin.email ul) w).
  destruct (stored_user (UserLogin.email ul) w) as [u|] eqn:Hu;
    [|discriminate].
  destruct (verify_password _ _) as [[|]|e] eqn:Hv; cbn; try discriminate.
  destruct (create_access_token _ _) as [tok|e] eqn:Htok; [|discriminate].
  intros H. inversion H; subst. cbn.
  destruct (stored_user_some _ _ _ Hu) as [Hin Hmail].
  repeat split; assumption || reflexivity.
Qed.

Lemma register_refused uc (w : world P) u :
  In u (users (db w)) ->
  User.email u = UserCreate.email uc ->
  register_ uc w = (Raised (HTTPException 400 "Email already registered"), w).
Proof.
  intros Hin Hmail.
  unfold register, bind, select_user_id_by_email, raise.
  fold (stored_user (UserCreate.email uc) w).
  destruct (stored_user (UserCreate.email uc) w) as [u'|] eqn:Hu;
    [reflexivity|].
  exfalso. exact (proj1 (stored_user_none _ _) Hu u Hin Hmail).
Qed.

(** X11: registering an e-mail some stored user already has is refused
    with status 400 "Email already registered", whatever
    [get_password_hash] would do with the password; the world is left
    as it was. *)
Theorem register_existing_email uc (w : world P) u :
  In u (users (db w)) ->
  User.email u = UserCreate.email uc ->
  register_ uc w = (Raised (HTTPException 400 "Email already registered"), w)
  /\ snd (register_ uc w) = w.
Proof.
  intros Hin Hmail. rewrite (register_refused _ _ _ Hin Hmail).
  split; reflexivity.
Qed.

Lemma register_completes_inv uc (w w' : world P) out :
  register_ uc w = (Returned out, w') ->
  exists h,
    get_password_hash (UserCreate.password uc) = Returned h
    /\ stored_user (UserCreate.email uc) w = None
    /\ w' = mkWorld
              (with_user (db w)
                 (User.mk (next_user_id (db w)) (UserCreate.name uc)
                    (UserCreate.email uc) h (UserCreate.role uc)))
              (calls w)
    /\ out = UserOut.mk (next_user_id (db w)) (UserCreate.name uc)
               (UserCreate.email uc) (UserCreate.role uc).
Proof.
  unfold register, bind, select_user_id_by_email, raise, lift, insert_user.
  fold (stored_user (UserCreate.email uc) w).
  destruct (stored_user (UserCreate.email uc) w) as [u'|] eqn:Hu;
    [discriminate|]. cbn.
  destruct (get_password_hash _) as [h|e] eqn:Hh; [|discriminate].
  intros H. inversion H; subst. exists h. repeat split; reflexivity.
Qed.

(** X12: a registration that completes has added exactly one user: no
    stored user had the e-mail, the new row holds the submitted name,
    e-mail and role, the database's key and, as its hash, what
    [get_password_hash] made of the password; the other tables are as
    before, and the row handed back carries no hash. *)
Theorem register_sound uc (w w' : world P) out :
  register_ uc w = (Returned out, w') ->
  exists h,
    get_password_hash (UserCreate.password uc) = Returned h
    /\ (forall u, In u (users (db w)) ->
                  User.email u <> UserCreate.email uc)
    /\ users (db w')
       = users (db w)
         ++ [User.mk (next_user_id (db w)) (UserCreate.name uc)
               (UserCreate.email uc) h (UserCreate.role uc)]
    /\ vehicles (db w') = vehicles (db w)
    /\ cargo (db w') = cargo (db w)
    /\ load_plans (db w') = load_plans (db w)
    /\ out = UserOut.mk (next_user_id (db w)) (UserCreate.name uc)
               (UserCreate.email uc) (UserCreate.role uc).
Proof.
  intros H. destruct (register_completes_inv _ _ _ _ H)
    as (h & Hh & Hnone & -> & ->).
  exists h. split; [exact Hh|].
  split; [apply stored_user_none; exact Hnone|].
  cbn. repeat split; reflexivity.
Qed.

(** X13: registration keeps e-mails unique: if no two stored users
    share an e-mail before a registration, none do after it, whatever
    its outcome. *)
Theorem register_keeps_emails_unique uc (w : world P) :
  NoDup (map User.email (users (db w))) ->
  NoDup (map User.email (users (db (snd (register_ uc w))))).
Proof.
  intros Hnd.
  destruct (register_ uc w) as [[out|e] w'] eqn:Hrun; cbn.
  - destruct (register_completes_inv _ _ _ _ Hrun)
      as (h & _ & Hnone & -> & _).
    cbn. rewrite map_app. cbn.
    apply NoDup_app_remove_l with (l := []). cbn.
    apply Permutation_NoDup with (l := UserCreate.email uc
                                        :: map User.email (users (db w))).
    + apply Permutation_cons_append.
    + constructor; [|exact Hnd].
      intros Hin. apply in_map_iff in Hin. destruct Hin as (u & Hm & Hu).
      exact (proj1 (stored_user_none _ _) Hnone u Hu Hm).
  - revert Hrun.
    unfold register, bind, select_user_id_by_email, raise, lift, insert_user.
    destruct (option_map _ _); cbn.
    + intros H. inversion H; subst. exact Hnd.
    + destruct (get_password_hash _); cbn; intros H; inversion H; subst.
      exact Hnd.
Qed.

(** X14: register, then log in.  After a registration that completed,
    logging in with the same e-mail and password is accepted (given
    that the password check accepts a hash made from the same password
    and that a token can be made): it returns the new user, with a
    token for subject [str] of the key the registration handed back. *)
Theorem register_then_login uc (w w1 : world P) out tok :
  register_ uc w = (Returned out, w1) ->
  (forall h, get_password_hash (UserCreate.password uc) = Returned h ->
             verify_password (UserCreate.password uc) h = Returned true) ->
  create_access_token
    (mkToken (str (UserOut.user_id out)) (UserCreate.email uc)
       (UserCreate.role uc))
    ACCESS_TOKEN_EXPIRE_MINUTES = Returned tok ->
  exists u,
    login_ (UserLogin.mk (UserCreate.email uc) (UserCreate.password uc)) w1
    = (Returned (mkTokenResponse tok "bearer" u), w1)
    /\ user_out u = out
    /\ In u (users (db w1)).
Proof.
  intros Hreg Hverify Htok.
  destruct (register_completes_inv _ _ _ _ Hreg)
    as (h & Hh & Hnone & -> & ->).
  unfold stored_user in Hnone.
  exists (User.mk (next_user_id (db w)) (UserCreate.name uc)
            (UserCreate.email uc) h (UserCreate.role uc)).
  split; [|split].
  - unfold login, bind, select_user_by_email, raise, lift, ret, token_data.
    cbn [db users with_user UserLogin.email UserLogin.password].
    rewrite (find_after _ _
               (User.mk (next_user_id (db w)) (UserCreate.name uc)
                  (UserCreate.email uc) h (UserCreate.role uc))
               Hnone (String.eqb_refl _)).
    cbn. rewrite (Hverify h Hh). cbn. cbn in Htok. rewrite Htok.
    reflexivity.
  - reflexivity.
  - cbn. apply in_or_app. right. left. reflexivity.
Qed.

(** X15: an e-mail can be registered once: after a registration that
    completed, any further registration with the same e-mail, whatever
    its other fields, is refused with status 400 and stores nothing. *)
Theorem register_twice uc uc' (w w1 : world P) out :
  register_ uc w = (Returned out, w1) ->
  UserCreate.email uc' = UserCreate.email uc ->
  register_ uc' w1
  = (Raised (HTTPException 400 "Email already registered"), w1).
Proof.
  intros Hreg Hmail.
  destruct (register_completes_inv _ _ _ _ Hreg)
    as (h & Hh & Hnone & -> & _).
  eapply register_refused.
  - cbn. apply in_or_app. right. left. reflexivity.
  - cbn. symmetry. exact Hmail.
Qed.

End AccountProperties.

(** * Sessions: from [login] to [me] and [generate_plan] *)

Section SessionProperties.

Context {P : Type}.
Variable eng : PhysicsEngine P.
Variable verify_password : string -> string -> outcome bool.
Variable create_access_token : TokenData -> Z -> outcome string.
Variable ACCESS_TOKEN_EXPIRE_MINUTES : Z.
Variable str : Z -> string.
Variable int : string -> outcome Z.
Variable vehicle_created_at : Vehicle.row -> Z.
Variable cargo_created_at : Cargo.row -> Z.

Local Abbreviation login_ :=
  (login verify_password create_access_token ACCESS_TOKEN_EXPIRE_MINUTES str).

(** X10: the reading handlers write nothing: [login], [me],
    [get_vehicles] and [get_cargo] leave the database and the log of
    engine calls exactly as they found them, whatever they answer. *)
Theorem readers_leave_world ul cu (w : world P) :
  snd (login_ ul w) = w
  /\ snd (me int cu w) = w
  /\ snd (get_vehicles vehicle_created_at cu w) = w
  /\ snd (get_cargo cargo_created_at cu w) = w.
Proof.
  split; [|split; [|split]]; try reflexivity.
  - unfold login, bind, select_user_by_email, raise, lift, ret.
    destruct (find _ _) as [u|]; [|reflexivity].
    destruct (verify_password _ _) as [[|]|e]; cbn; try reflexivity.
    destruct (create_access_token _ _); reflexivity.
  - unfold me, bind, lift, select_user_by_id.
    destruct (int (sub cu)); reflexivity.
Qed.

(** X16: log in, then ask who you are.  When user ids are keys of the
    [users] table and [int] reads back what [str] wrote for the user's
    id, [me] called with the payload of the token a login issued
    answers with the user that login returned, without its hash. *)
Theorem login_then_me ul (w w' : world P) t :
  NoDup (map User.user_id (users (db w))) ->
  login_ ul w = (Returned t, w') ->
  int (str (User.user_id (user t))) = Returned (User.user_id (user t)) ->
  me int (token_data str (user t)) w'
  = (Returned (Some (user_out (user t))), w').
Proof.
  intros Hkeys Hlogin Hint.
  destruct (login_returns_stored _ _ _ _ _ _ _ _ Hlogin) as [-> Hin].
  unfold me, bind, lift, select_user_by_id, token_data. cbn [sub].
  rewrite Hint.
  destruct (find _ (users (db w))) as [u|] eqn:Hfind.
  - apply find_some in Hfind. destruct Hfind as [Hu Heq].
    apply Z.eqb_eq in Heq.
    rewrite (unique_key_row User.user_id (users (db w)) u (user t)
               Hkeys Hu Hin Heq).
    reflexivity.
  - pose proof (find_none _ _ Hfind (user t) Hin) as Hno. cbn in Hno.
    rewrite Z.eqb_refl in Hno. discriminate.
Qed.

(** X17: log in, then plan.  A plan generated under the payload of the
    token a login issued is stored under the id of the user that login
    returned, a stored user (given that [int] reads back what [str]
    wrote for that id). *)
Theorem login_then_generate_plan ul plan (w w1 w2 : world P) t row :
  login_ ul w = (Returned t, w1) ->
  int (str (User.user_id (user t))) = Returned (User.user_id (user t)) ->
  generate_plan eng int plan (token_data str (user t)) w1
  = (Returned row, w2) ->
  LoadPlan.user_id row = User.user_id (user t)
  /\ In (user t) (users (db w2))
  /\ load_plans (db w2) = load_plans (db w) ++ [row].
Proof.
  intros Hlogin Hint Hplan.
  destruct (login_returns_stored _ _ _ _ _ _ _ _ Hlogin) as [-> Hin].
  destruct (generate_plan_completes_inv _ _ _ _ _ _ _ Hplan)
    as (p & a & uid & _ & _ & Huid & -> & ->).
  unfold token_data in Huid. cbn [sub] in Huid.
  rewrite Hint in Huid. inversion Huid; subst uid.
  cbn. repeat split; assumption || reflexivity.
Qed.

(** X23: [me] for a subject that names no stored user does not fail:
    it answers with no user, and the world is as before. *)
Theorem me_unknown_user cu (w : world P) n :
  int (sub cu) = Returned n ->
  (forall u, In u (users (db w)) -> User.user_id u <> n) ->
  me int cu w = (Returned None, w).
Proof.
  intros Hint Hnone. unfold me, bind, lift, select_user_by_id.
  rewrite Hint. rewrite find_absent; [reflexivity|].
  intros u Hu. apply Z.eqb_neq. apply Hnone. exact Hu.
Qed.

End SessionProperties.

(** * Vehicles and cargo *)

Section FleetProperties.

Context {P : Type}.
Variable eng : PhysicsEngine P.
Variable int : string -> outcome Z.
Variable get_password_hash : string -> outcome string.
Variable next_user_id : database -> Z.
Variable next_vehicle_id : database -> Z.
Variable next_cargo_id : database -> Z.
Variable vehicle_created_at : Vehicle.row -> Z.
Variable cargo_created_at : Cargo.row -> Z.

Lemma insert_desc_perm {A} (key : A -> Z) (a : A) (l : list A) :
  Permutation (a :: l) (insert_desc key a l).
Proof.
  induction l as [|b l IH]; cbn; [reflexivity|].
  destruct (key b <=? key a); [reflexivity|].
  rewrite perm_swap. apply perm_skip. exact IH.
Qed.

Lemma order_by_desc_perm {A} (key : A -> Z) (l : list A) :
  Permutation l (order_by_desc key l).
Proof.
  induction l as [|a l IH]; cbn; [constructor|].
  rewrite <- insert_desc_perm. apply perm_skip. exact IH.
Qed.

Lemma insert_desc_sorted {A} (key : A -> Z) (a : A) (l : list A) :
  StronglySorted (fun c d => key d <= key c) l ->
  StronglySorted (fun c d => key d <= key c) (insert_desc key a l).
Proof.
  induction 1 as [|b l Hl IH Hb]; cbn.
  - constructor; constructor.
  - destruct (key b <=? key a) eqn:Hcmp.
    + apply Z.leb_le in Hcmp. constructor.
      * constructor; assumption.
      * constructor; [exact Hcmp|].
        rewrite Forall_forall in *. intros c Hc.
        specialize (Hb c Hc). cbn in Hb. lia.
    + apply Z.leb_gt in Hcmp. constructor; [exact IH|].
      apply (Permutation_Forall (insert_desc_perm key a l)).
      constructor; [lia|exact Hb].
Qed.

Lemma order_by_desc_sorted {A} (key : A -> Z) (l : list A) :
  StronglySorted (fun c d => key d <= key c) (order_by_desc key l).
Proof.
  induction l as [|a l IH]; cbn; [constructor|].
  apply insert_desc_sorted. exact IH.
Qed.

(** X20: [get_vehicles] answers with every stored vehicle, each as often
    as it is stored and none else, newest first by [created_at]; it
    ignores who asks. *)
Theorem get_vehicles_lists_all cu (w : world P) :
  exists vs,
    get_vehicles vehicle_created_at cu w = (Returned vs, w)
    /\ Permutation (vehicles (db w)) vs
    /\ StronglySorted
         (fun a b => vehicle_created_at b <= vehicle_created_at a) vs.
Proof.
  exists (order_by_desc vehicle_created_at (vehicles (db w))).
  split; [reflexivity|]. split.
  - apply order_by_desc_perm.
  - apply order_by_desc_sorted.
Qed.

(** X21: [get_cargo] answers with every stored cargo row, each as often
    as it is stored and none else, newest first by [created_at]. *)
Theorem get_cargo_lists_all cu (w : world P) :
  exists cs,
    get_cargo cargo_created_at cu w = (Returned cs, w)
    /\ Permutation (cargo (db w)) cs
    /\ StronglySorted
         (fun a b => cargo_created_at b <= cargo_created_at a) cs.
Proof.
  exists (order_by_desc cargo_created_at (cargo (db w))).
  split; [reflexivity|]. split.
  - apply order_by_desc_perm.
  - apply order_by_desc_sorted.
Qed.

Lemma find_skips {A} (f : A -> bool) (l : list A) (a : A) :
  (forall b, In b l -> f b = false) -> f a = true ->
  find f (l ++ [a]) = Some a.
Proof.
  intros Hnone Ha. apply find_after; [|exact Ha].
  apply find_absent. exact Hnone.
Qed.

(** X18: create a vehicle, then plan for it.  When the key the database
    gives the new vehicle is not one already in the table, the vehicle
    is stored with exactly the submitted fields, and a plan then
    requested for the returned id has the engine called with that very
    row (and with the cargo rows stored before). *)
Theorem create_vehicle_then_plan vc cu user ids (w : world P) :
  ~ In (next_vehicle_id (db w))
      (map Vehicle.vehicle_id (vehicles (db w))) ->
  exists v w1,
    create_vehicle next_vehicle_id vc cu w = (Returned v, w1)
    /\ v = Vehicle.mk (next_vehicle_id (db w))
             (VehicleCreate.vehicle_type vc) (VehicleCreate.max_load vc)
             (VehicleCreate.length vc) (VehicleCreate.width vc)
             (VehicleCreate.height vc)
    /\ vehicles (db w1) = vehicles (db w) ++ [v]
    /\ exists rest,
         calls (snd (generate_plan eng int
                       (LoadPlanCreate.mk (Vehicle.vehicle_id v) ids)
                       user w1))
         = calls w
           ++ CallOptimize (cargo_matching ids (cargo (db w))) (Some v)
              :: rest.
Proof.
  intros Hfresh. eexists. eexists.
  split; [reflexivity|]. split; [reflexivity|]. split; [reflexivity|].
  rewrite generate_plan_unfold. unfold fetched_vehicle, fetched_cargo.
  cbn [db calls vehicles cargo with_vehicle LoadPlanCreate.vehicle_id
       LoadPlanCreate.cargo_items Vehicle.vehicle_id].
  rewrite find_skips.
  - cbn zeta.
    destruct (optimize_placement eng _ _) as [p|e]; [|eexists; reflexivity].
    destruct (analyze_load eng p _ _) as [a|e]; [|eexists; reflexivity].
    destruct (int (sub user)); eexists; reflexivity.
  - intros b Hb. apply Z.eqb_neq. intros Heq. apply Hfresh.
    rewrite <- Heq. apply in_map. exact Hb.
  - apply Z.eqb_refl.
Qed.

(** X19: create a cargo item, then plan with it.  The item is stored
    with exactly the submitted fields, and a plan then requested whose
    id list contains the returned id has the engine called on the rows
    it would have got before, followed by the new row. *)
Theorem create_cargo_then_plan cc cu user vid ids (w : world P) :
  In (next_cargo_id (db w)) ids ->
  exists c w1,
    create_cargo next_cargo_id cc cu w = (Returned c, w1)
    /\ c = Cargo.mk (next_cargo_id (db w)) (CargoCreate.name cc)
             (CargoCreate.weight cc) (CargoCreate.length cc)
             (CargoCreate.width cc) (CargoCreate.height cc)
    /\ cargo (db w1) = cargo (db w) ++ [c]
    /\ exists rest,
         calls (snd (generate_plan eng int (LoadPlanCreate.mk vid ids)
                       user w1))
         = calls w
           ++ CallOptimize (cargo_matching ids (cargo (db w)) ++ [c])
                (find (fun r => Vehicle.vehicle_id r =? vid)
                   (vehicles (db w)))
              :: rest.
Proof.
  intros Hin. eexists. eexists.
  split; [reflexivity|]. split; [reflexivity|]. split; [reflexivity|].
  rewrite generate_plan_unfold. unfold fetched_vehicle, fetched_cargo.
  cbn [db calls vehicles cargo with_cargo LoadPlanCreate.vehicle_id
       LoadPlanCreate.cargo_items].
  assert (Hc : forall c,
             Cargo.cargo_id c = next_cargo_id (db w) ->
             cargo_matching ids (cargo (db w) ++ [c])
             = cargo_matching ids (cargo (db w)) ++ [c]).
  { intros c Hid. unfold cargo_matching. rewrite filter_app. cbn.
    replace (existsb (Z.eqb (Cargo.cargo_id c)) ids) with true;
      [reflexivity|].
    symmetry. apply existsb_exists. exists (next_cargo_id (db w)).
    split; [exact Hin|]. rewrite Hid. apply Z.eqb_refl. }
  rewrite Hc by reflexivity. cbn zeta.
  destruct (optimize_placement eng _ _) as [p|e]; [|eexists; reflexivity].
  destruct (analyze_load eng p _ _) as [a|e]; [|eexists; reflexivity].
  destruct (int (sub user)); eexists; reflexivity.
Qed.

Lemma NoDup_snoc {A} (l : list A) (a : A) :
  NoDup l -> ~ In a l -> NoDup (l ++ [a]).
Proof.
  intros Hnd Hnot.
  apply Permutation_NoDup with (l := a :: l).
  - apply Permutation_cons_append.
  - constructor; assumption.
Qed.

(** X22: keys stay keys.  If the ids of a table are pairwise different
    and the database gives a new row an id not yet in the table, they
    are still pairwise different after [create_vehicle], after
    [create_cargo] and after [register], whatever the latter answers. *)
Theorem creation_keeps_keys_unique vc cc uc cu (w : world P) :
  (NoDup (map Vehicle.vehicle_id (vehicles (db w))) ->
   ~ In (next_vehicle_id (db w))
       (map Vehicle.vehicle_id (vehicles (db w))) ->
   NoDup (map Vehicle.vehicle_id
            (vehicles (db (snd (create_vehicle next_vehicle_id vc cu w))))))
  /\ (NoDup (map Cargo.cargo_id (cargo (db w))) ->
      ~ In (next_cargo_id (db w)) (map Cargo.cargo_id (cargo (db w))) ->
      NoDup (map Cargo.cargo_id
               (cargo (db (snd (create_cargo next_cargo_id cc cu w))))))
  /\ (NoDup (map User.user_id (users (db w))) ->
      ~ In (next_user_id (db w)) (map User.user_id (users (db w))) ->
      NoDup (map User.user_id
               (users (db (snd (register get_password_hash next_user_id
                                  uc w)))))).
Proof.
  split; [|split]; intros Hnd Hfresh.
  - cbn. rewrite map_app. apply NoDup_snoc; assumption.
  - cbn. rewrite map_app. apply NoDup_snoc; assumption.
  - unfold register, bind, select_user_id_by_email, raise, lift, insert_user.
    destruct (option_map _ _); cbn; [exact Hnd|].
    destruct (get_password_hash _); cbn; [|exact Hnd].
    rewrite map_app. apply NoDup_snoc; assumption.
Qed.

End FleetProperties.

(** * The further properties on the worked data *)

Lemma generate_plan_ids_as_set_witness :
  generate_plan Demo.blind_engine Demo.decimal_int
    (LoadPlanCreate.mk 1 [3; 1; 3]) Desk.ann_data Desk.opened
  = generate_plan Demo.blind_engine Demo.decimal_int
      (LoadPlanCreate.mk 1 [1; 3]) Desk.ann_data Desk.opened.
Proof.
  apply (generate_plan_ids_as_set Demo.blind_engine Demo.decimal_int
           1 [3; 1; 3] [1; 3] Desk.ann_data Desk.opened).
  intros i. cbn. tauto.
Defined.





Lemma generate_plan_known_vehicle_witness :
  exists rest,
    calls (snd (generate_plan Demo.blind_engine Demo.decimal_int
                  Desk.office_plan Desk.ann_data Desk.opened))
    = calls Desk.opened
      ++ CallOptimize (fetched_cargo Desk.office_plan Desk.opened)
           (Some Demo.truck) :: rest.
Proof.
  apply (generate_plan_known_vehicle Demo.blind_engine Demo.decimal_int
           Desk.office_plan Desk.ann_data Desk.opened Demo.truck).
  - cbn. constructor; [intros []|constructor].
  - left. reflexivity.
  - reflexivity.
Defined.

Lemma generate_plan_items_distinct_witness :
  NoDup (map Cargo.cargo_id (cargo (db Desk.opened)))
  /\ exists items v rest,
       calls (snd (generate_plan Demo.blind_engine Demo.decimal_int
                     Desk.office_plan Desk.ann_data Desk.opened))
       = calls Desk.opened ++ CallOptimize items v :: rest
       /\ NoDup (map Cargo.cargo_id items)
       /\ (List.length items
           <= List.length (LoadPlanCreate.cargo_items Desk.office_plan))%nat
       /\ (forall r, In r items -> In r (cargo (db Desk.opened))).
Proof.
  assert (Hkeys : NoDup (map Cargo.cargo_id (cargo (db Desk.opened)))).
  { cbn. repeat constructor; cbn; intuition discriminate. }
  split; [exact Hkeys|].
  exact (generate_plan_items_distinct Demo.blind_engine Demo.decimal_int
           Desk.office_plan Desk.ann_data Desk.opened Hkeys).
Defined.

Lemma generate_plan_bad_subject_witness :
  Demo.decimal_int (sub Desk.mallory) = Raised "ValueError"
  /\ db (snd (generate_plan Demo.blind_engine Demo.decimal_int
                Desk.office_plan Desk.mallory Desk.opened))
     = db Desk.opened
  /\ fst (generate_plan Demo.blind_engine Demo.decimal_int
            Desk.office_plan Desk.mallory Desk.opened)
     = Raised "ValueError".
Proof.
  split; [reflexivity|].
  destruct (generate_plan_bad_subject Demo.blind_engine Demo.decimal_int
              Desk.office_plan Desk.mallory Desk.opened "ValueError"
              eq_refl) as (Hdb & _ & Hcalls).
  split; [exact Hdb|].
  exact (proj1 (Hcalls (Core.Ok []) Demo.flat_analysis eq_refl eq_refl)).
Defined.

Lemma generate_plan_no_cargo_witness :
  (forall r, In r (cargo (db Desk.opened)) ->
             ~ In (Cargo.cargo_id r) [9; 10])
  /\ (exists rest,
         calls (snd (generate_plan Demo.blind_engine Demo.decimal_int
                       (LoadPlanCreate.mk 1 [9; 10]) Desk.ann_data
                       Desk.opened))
         = calls Desk.opened ++ CallOptimize [] (Some Demo.truck) :: rest)
  /\ fst (generate_plan Demo.blind_engine Demo.decimal_int
            (LoadPlanCreate.mk 1 [9; 10]) Desk.ann_data Desk.opened)
     = Returned (plan_row 7 (LoadPlanCreate.mk 1 [9; 10])
                   Demo.flat_analysis).
Proof.
  assert (Hnone : forall r, In r (cargo (db Desk.opened)) ->
                            ~ In (Cargo.cargo_id r) [9; 10]).
  { intros r [<-|[<-|[<-|[]]]]; cbn; intuition discriminate. }
  split; [exact Hnone|].
  destruct (generate_plan_no_cargo Demo.blind_engine Demo.decimal_int
              (LoadPlanCreate.mk 1 [9; 10]) Desk.ann_data Desk.opened Hnone)
    as [Hcall Hdone].
  split; [exact Hcall|].
  exact (proj1 (Hdone (Core.Ok []) Demo.flat_analysis 7
                  eq_refl eq_refl eq_refl)).
Defined.

Lemma login_rejects_witness :
  login Desk.verify_password Desk.create_access_token Desk.minutes Desk.str
    Desk.wrong_login Desk.opened
  = (Raised (HTTPException 401 "Invalid email or password"), Desk.opened).
Proof.
  apply (login_rejects Desk.verify_password Desk.create_access_token
           Desk.minutes Desk.str Desk.wrong_login Desk.opened).
  intros u Hu. vm_compute in Hu. inversion Hu; subst. reflexivity.
Defined.

Lemma login_sound_witness :
  login Desk.verify_password Desk.create_access_token Desk.minutes Desk.str
    Desk.ann_login Desk.opened
  = (Returned Desk.ann_token, Desk.opened)
  /\ In (user Desk.ann_token) (users (db Desk.opened))
  /\ Desk.verify_password (UserLogin.password Desk.ann_login)
       (User.password_hash (user Desk.ann_token))
     = Returned true.
Proof.
  assert (Hrun : login Desk.verify_password Desk.create_access_token
                   Desk.minutes Desk.str Desk.ann_login Desk.opened
                 = (Returned Desk.ann_token, Desk.opened))
    by (vm_compute; reflexivity).
  split; [exact Hrun|].
  destruct (login_sound Desk.verify_password Desk.create_access_token
              Desk.minutes Desk.str Desk.ann_login Desk.opened Desk.opened
              Desk.ann_token Hrun) as (_ & _ & Hin & _ & Hver & _).
  split; assumption.
Defined.

Lemma register_existing_email_witness :
  register Desk.get_password_hash Desk.next_user_id
    (UserCreate.mk "ann two" "ann@example.org" "pw" "driver") Desk.opened
  = (Raised (HTTPException 400 "Email already registered"), Desk.opened).
Proof.
  apply (register_existing_email Desk.get_password_hash Desk.next_user_id
           (UserCreate.mk "ann two" "ann@example.org" "pw" "driver")
           Desk.opened Desk.ann_row).
  - left. reflexivity.
  - reflexivity.
Defined.

Lemma register_sound_witness :
  register Desk.get_password_hash Desk.next_user_id Desk.bob_signup
    Desk.opened
  = (Returned Desk.bob_out,
     snd (register Desk.get_password_hash Desk.next_user_id Desk.bob_signup
            Desk.opened))
  /\ exists h,
       Desk.get_password_hash (UserCreate.password Desk.bob_signup)
       = Returned h
       /\ users (db (snd (register Desk.get_password_hash
                            Desk.next_user_id Desk.bob_signup Desk.opened)))
          = users (db Desk.opened)
            ++ [User.mk (Desk.next_user_id (db Desk.opened))
                  (UserCreate.name Desk.bob_signup)
                  (UserCreate.email Desk.bob_signup) h
                  (UserCreate.role Desk.bob_signup)].
Proof.
  split; [reflexivity|].
  destruct (register_sound Desk.get_password_hash Desk.next_user_id
              Desk.bob_signup Desk.opened _ Desk.bob_out eq_refl)
    as (h & Hh & _ & Husers & _).
  exists h. split; assumption.
Defined.

Lemma register_keeps_emails_unique_witness :
  NoDup (map User.email (users (db Desk.opened)))
  /\ NoDup (map User.email
              (users (db (snd (register Desk.get_password_hash
                                 Desk.next_user_id Desk.bob_signup
                                 Desk.opened))))).
Proof.
  assert (Hnd : NoDup (map User.email (users (db Desk.opened)))).
  { cbn. constructor; [intros []|constructor]. }
  split; [exact Hnd|].
  exact (register_keeps_emails_unique Desk.get_password_hash
           Desk.next_user_id Desk.bob_signup Desk.opened Hnd).
Defined.

Lemma register_then_login_witness :
  exists u,
    login Desk.verify_password Desk.create_access_token Desk.minutes
      Desk.str (UserLogin.mk "bob@example.org" "pass")
      (snd (register Desk.get_password_hash Desk.next_user_id
              Desk.bob_signup Desk.opened))
    = (Returned (mkTokenResponse "token:8" "bearer" u),
       snd (register Desk.get_password_hash Desk.next_user_id
              Desk.bob_signup Desk.opened))
    /\ user_out u = Desk.bob_out
    /\ In u (users (db (snd (register Desk.get_password_hash
                               Desk.next_user_id Desk.bob_signup
                               Desk.opened)))).
Proof.
  apply (register_then_login Desk.verify_password Desk.get_password_hash
           Desk.create_access_token Desk.minutes Desk.str
           Desk.next_user_id Desk.bob_signup Desk.opened _ Desk.bob_out
           "token:8").
  - reflexivity.
  - intros h Hh. inversion Hh; subst. reflexivity.
  - reflexivity.
Defined.

Lemma register_twice_witness :
  register Desk.get_password_hash Desk.next_user_id
    (UserCreate.mk "robert" "bob@example.org" "other" "planner")
    (snd (register Desk.get_password_hash Desk.next_user_id Desk.bob_signup
            Desk.opened))
  = (Raised (HTTPException 400 "Email already registered"),
     snd (register Desk.get_password_hash Desk.next_user_id Desk.bob_signup
            Desk.opened)).
Proof.
  apply (register_twice Desk.get_password_hash Desk.next_user_id
           Desk.bob_signup
           (UserCreate.mk "robert" "bob@example.org" "other" "planner")
           Desk.opened _ Desk.bob_out);
    reflexivity.
Defined.

Lemma login_then_me_witness :
  me Demo.decimal_int (token_data Desk.str (user Desk.ann_token))
    Desk.opened
  = (Returned (Some (user_out Desk.ann_row)), Desk.opened).
Proof.
  apply (login_then_me Desk.verify_password Desk.create_access_token
           Desk.minutes Desk.str Demo.decimal_int Desk.ann_login
           Desk.opened Desk.opened Desk.ann_token).
  - cbn. constructor; [intros []|constructor].
  - vm_compute. reflexivity.
  - vm_compute. reflexivity.
Defined.

Lemma login_then_generate_plan_witness :
  LoadPlan.user_id Desk.flat_row = User.user_id Desk.ann_row
  /\ In Desk.ann_row
       (users (db (snd (generate_plan Demo.blind_engine Demo.decimal_int
                          Desk.office_plan
                          (token_data Desk.str (user Desk.ann_token))
                          Desk.opened)))).
Proof.
  destruct (login_then_generate_plan Demo.blind_engine
              Desk.verify_password Desk.create_access_token Desk.minutes
              Desk.str Demo.decimal_int Desk.ann_login Desk.office_plan
              Desk.opened Desk.opened
              (snd (generate_plan Demo.blind_engine Demo.decimal_int
                      Desk.office_plan
                      (token_data Desk.str (user Desk.ann_token))
                      Desk.opened))
              Desk.ann_token Desk.flat_row)
    as (Hid & Hin & _).
  - vm_compute. reflexivity.
  - vm_compute. reflexivity.
  - vm_compute. reflexivity.
  - split; assumption.
Defined.

Lemma me_unknown_user_witness :
  me Demo.decimal_int Desk.stranger Desk.opened = (Returned None, Desk.opened).
Proof.
  apply (me_unknown_user Demo.decimal_int Desk.stranger Desk.opened 99).
  - reflexivity.
  - intros u [<-|[]]. cbn. discriminate.
Defined.

Lemma create_vehicle_then_plan_witness :
  exists v w1,
    create_vehicle Desk.next_vehicle_id Desk.van Desk.ann_data Desk.opened
    = (Returned v, w1)
    /\ v = Desk.van_row
    /\ vehicles (db w1) = vehicles (db Desk.opened) ++ [v]
    /\ exists rest,
         calls (snd (generate_plan Demo.blind_engine Demo.decimal_int
                       (LoadPlanCreate.mk (Vehicle.vehicle_id v) [1])
                       Desk.ann_data w1))
         = calls Desk.opened
           ++ CallOptimize (cargo_matching [1] (cargo (db Desk.opened)))
                (Some v) :: rest.
Proof.
  apply (create_vehicle_then_plan Demo.blind_engine Demo.decimal_int
           Desk.next_vehicle_id Desk.van Desk.ann_data Desk.ann_data [1]
           Desk.opened).
  cbn. intuition discriminate.
Defined.

Lemma create_cargo_then_plan_witness :
  exists c w1,
    create_cargo Desk.next_cargo_id Desk.box Desk.ann_data Desk.opened
    = (Returned c, w1)
    /\ c = Desk.box_row
    /\ cargo (db w1) = cargo (db Desk.opened) ++ [c]
    /\ exists rest,
         calls (snd (generate_plan Demo.blind_engine Demo.decimal_int
                       (LoadPlanCreate.mk 1 [4; 1]) Desk.ann_data w1))
         = calls Desk.opened
           ++ CallOptimize
                (cargo_matching [4; 1] (cargo (db Desk.opened)) ++ [c])
                (find (fun r => Vehicle.vehicle_id r =? 1)
                   (vehicles (db Desk.opened)))
              :: rest.
Proof.
  apply (create_cargo_then_plan Demo.blind_engine Demo.decimal_int
           Desk.next_cargo_id Desk.box Desk.ann_data Desk.ann_data 1 [4; 1]
           Desk.opened).
  left. reflexivity.
Defined.

Lemma creation_keeps_keys_unique_witness :
  NoDup (map Vehicle.vehicle_id
           (vehicles (db (snd (create_vehicle Desk.next_vehicle_id Desk.van
                                 Desk.ann_data Desk.opened)))))
  /\ NoDup (map Cargo.cargo_id
              (cargo (db (snd (create_cargo Desk.next_cargo_id Desk.box
                                 Desk.ann_data Desk.opened)))))
  /\ NoDup (map User.user_id
              (users (db (snd (register Desk.get_password_hash
                                 Desk.next_user_id Desk.bob_signup
                                 Desk.opened))))).
Proof.
  destruct (creation_keeps_keys_unique Desk.get_password_hash
              Desk.next_user_id Desk.next_vehicle_id Desk.next_cargo_id
              Desk.van Desk.box Desk.bob_signup Desk.ann_data Desk.opened)
    as (Hv & Hc & Hu).
  split; [|split].
  - apply Hv; cbn; [repeat constructor|]; intuition discriminate.
  - apply Hc; cbn; [repeat constructor|]; cbn; intuition discriminate.
  - apply Hu; cbn; [repeat constructor|]; intuition discriminate.
Defined.
